(** * The benchmark dashboard server ([dashboard/server.py])

    A shallow embedding of [BenchmarkHandler] and the properties of its
    three API routes.

    Text is a [string] with one [ascii] per code point (code points below
    256).  A Python [dict] with string keys is a [gmap string _]; an
    exception is the [Raise] branch of [result].  The builtins [float],
    [int] and [json.loads], the static file handler of the base class and
    the limits of the interpreter are parameters of the development: every
    theorem holds for whatever they are.  The client stays connected: what
    the handler writes to the socket is written. *)

From Stdlib Require Import QArith Ascii String.
From stdpp Require Import gmap strings list fin_maps.

Local Open Scope string_scope.
Local Open Scope Z_scope.

(** ** Exceptions *)

Inductive exn : Type :=
  | IndexError
  | ValueError
  | TypeError
  | AttributeError
  | JSONDecodeError
  | UnicodeDecodeError
  | OSError
  | OverflowError
  | MemoryError
  | RecursionError
  | CalledProcessError.

Inductive result (A : Type) : Type :=
  | Ok (a : A)
  | Raise (e : exn).
Arguments Ok {A} a.
Arguments Raise {A} e.

#[global] Instance result_ret : MRet result := fun _ a => Ok a.
#[global] Instance result_bind : MBind result := fun _ _ f m =>
  match m with
  | Ok a => f a
  | Raise e => Raise e
  end.

(** [try: body except: handler] with a bare [except]. *)
Definition try_except {A} (body : result A) (handler : A) : A :=
  match body with
  | Ok a => a
  | Raise _ => handler
  end.

(** [l[i]] on a list. *)
Definition getitem {A} (l : list A) (i : nat) : result A :=
  match l !! i with
  | Some a => Ok a
  | None => Raise IndexError
  end.

(** ** Python string operations *)

Module Str.

Definition LF : ascii := "010"%char.
Definition CR : ascii := "013"%char.

(** [str.isspace] on one code point below 256: U+0009..U+000D,
    U+001C..U+0020, U+0085 and U+00A0. *)
Definition isspace (c : ascii) : bool :=
  let n := nat_of_ascii c in
  ((9 <=? n) && (n <=? 13) || (28 <=? n) && (n <=? 32)
   || (n =? 133) || (n =? 160))%nat.

(** [str.lower] on one code point below 256. *)
Definition lower_char (c : ascii) : ascii :=
  let n := nat_of_ascii c in
  if ((65 <=? n) && (n <=? 90)
      || (192 <=? n) && (n <=? 222) && negb (n =? 215))%nat
  then ascii_of_nat (n + 32) else c.

Fixpoint lower (s : string) : string :=
  match s with
  | EmptyString => EmptyString
  | String c s' => String (lower_char c) (lower s')
  end.

Fixpoint lstrip (s : string) : string :=
  match s with
  | EmptyString => EmptyString
  | String c s' => if isspace c then lstrip s' else s
  end.

Fixpoint rstrip (s : string) : string :=
  match s with
  | EmptyString => EmptyString
  | String c s' =>
      match rstrip s' with
      | EmptyString => if isspace c then EmptyString else String c EmptyString
      | r => String c r
      end
  end.

(** [s.strip()] *)
Definition strip (s : string) : string := rstrip (lstrip s).

(** [s.startswith(p)] *)
Fixpoint startswith (p s : string) : bool :=
  match p, s with
  | EmptyString, _ => true
  | String a p', String b s' => Ascii.eqb a b && startswith p' s'
  | String _ _, EmptyString => false
  end.

(** [p in s] *)
Fixpoint contains (p s : string) : bool :=
  startswith p s ||
  match s with
  | EmptyString => false
  | String _ s' => contains p s'
  end.

(** [s.split(sep)] for a separator of one character: every occurrence
    cuts, empty pieces are kept, the result is never empty. *)
Fixpoint split (sep : ascii) (s : string) : list string :=
  match s with
  | EmptyString => [EmptyString]
  | String c s' =>
      if Ascii.eqb c sep then EmptyString :: split sep s'
      else match split sep s' with
           | w :: ws => String c w :: ws
           | [] => [String c EmptyString]
           end
  end.

(** [s.split()]: the maximal runs of non-whitespace characters. *)
Fixpoint split_ws (s : string) : list string :=
  match s with
  | EmptyString => []
  | String c s' =>
      if isspace c then split_ws s'
      else match s' with
           | EmptyString => [String c EmptyString]
           | String d _ =>
               if isspace d then String c EmptyString :: split_ws s'
               else match split_ws s' with
                    | w :: ws => String c w :: ws
                    | [] => [String c EmptyString]
                    end
           end
  end.

(** The text layer of [open(path)]: universal newlines turn CR LF and a
    lone CR into LF. *)
Fixpoint translate_newlines (s : string) : string :=
  match s with
  | EmptyString => EmptyString
  | String c s' =>
      if Ascii.eqb c CR then
        String LF
          match s' with
          | String d s'' =>
              if Ascii.eqb d LF then translate_newlines s''
              else translate_newlines s'
          | EmptyString => EmptyString
          end
      else String c (translate_newlines s')
  end.

(** [for line in f]: the lines of a text, each with its newline. *)
Fixpoint lines (s : string) : list string :=
  match s with
  | EmptyString => []
  | String c s' =>
      if Ascii.eqb c LF then String c EmptyString :: lines s'
      else match lines s' with
           | l :: ls => String c l :: ls
           | [] => [String c EmptyString]
           end
  end.

Definition nl : string := String LF EmptyString.
Definition crlf : string := String CR (String LF EmptyString).

(** [sep.join(ls)] *)
Fixpoint join (sep : string) (ls : list string) : string :=
  match ls with
  | [] => EmptyString
  | [l] => l
  | l :: ls' => l +:+ sep +:+ join sep ls'
  end.

Fixpoint all (p : ascii -> bool) (s : string) : bool :=
  match s with
  | EmptyString => true
  | String c s' => p c && all p s'
  end.

(** A string of whitespace only. *)
Definition blank (s : string) : bool := all isspace s.


End Str.

(** ** Python values *)

(** The values that reach [json.dumps], over a type [float] of binary64
    numbers. *)
#[warnings="-register-all"]
Inductive value (float : Type) : Type :=
  | VNone
  | VBool (b : bool)
  | VInt (z : Z)
  | VFloat (x : float)
  | VStr (s : string)
  | VList (l : list (value float))
  | VDict (m : gmap string (value float)).
Arguments VNone {float}.
Arguments VBool {float} b.
Arguments VInt {float} z.
Arguments VFloat {float} x.
Arguments VStr {float} s.
Arguments VList {float} l.
Arguments VDict {float} m.

(** The nesting of lists and objects in a value: what the encoder of
    [json.dumps] descends. *)
Fixpoint depth {float : Type} (v : value float) : nat :=
  match v with
  | VList l => S (foldr (fun x acc => Nat.max (depth x) acc) 0%nat l)
  | VDict m => S (map_fold (fun _ x acc => Nat.max (depth x) acc) 0%nat m)
  | _ => 0%nat
  end.

(** ** The handler's surroundings *)

(** A path of the file system as the handler meets it. [Unreadable e] is a
    path whose [exists()] or whose [open] raises [e].  [Damaged delivered e] is
    a file that opens and whose text layer raises [e] on a later read, such
    as a byte that does not decode: [delivered] is the text of the lines
    that an iteration yields before that read. *)
Inductive file : Type :=
  | Missing
  | Unreadable (e : exn)
  | Damaged (delivered : string) (e : exn)
  | Text (content : string).

Definition file_exists (f : file) : bool :=
  match f with
  | Missing => false
  | _ => true
  end.

(** [with open(path) as f: f.read()] *)
Definition read_text (f : file) : result string :=
  match f with
  | Missing => Raise OSError
  | Unreadable e => Raise e
  | Damaged _ e => Raise e
  | Text content => Ok (Str.translate_newlines content)
  end.

(** [with open(path) as f: for line in f]: the lines the loop receives, and
    the error that ends the iteration when a read fails. *)
Definition read_lines (f : file) : result (list string * option exn) :=
  match f with
  | Missing => Raise OSError
  | Unreadable e => Raise e
  | Damaged delivered e =>
      Ok (Str.lines (Str.translate_newlines delivered), Some e)
  | Text content => Ok (Str.lines (Str.translate_newlines content), None)
  end.

(** What becomes of the script when the thread gets to it: [exists()] is
    false; or [exists()] or the start of [bash] raises an [Exception]; or
    [bash] runs it, and it ends with a status or does not end. *)
Inductive script_state : Type :=
  | Absent
  | Fails (e : exn)
  | Runs (status : option Z).

Record world (float : Type) : Type := {
  baseline_summary : file;   (* results/baseline_summary.txt *)
  cpuinfo : file;            (* /proc/cpuinfo *)
  script : script_state;
  script_path : string;      (* str(script_path), below the install location *)
  now : float                (* time.time() *)
}.
Arguments Build_world {float}.
Arguments baseline_summary {float}.
Arguments cpuinfo {float}.
Arguments script {float}.
Arguments script_path {float}.
Arguments now {float}.

(** What a handler leaves behind besides a response it completed: what the
    thread does once it runs, and the head of a response whose body was
    never written. *)
Inductive event : Type :=
  | Exec (argv : list string)
  | PrintFailure (e : exn).

Inductive effect : Type :=
  | ThreadStart (run : list event)
  | HeadSent (status : Z) (headers : list (string * string)).

(** A handler step: the effects it performed and its value or exception. *)
Definition io (A : Type) : Type := (list effect * result A)%type.

#[global] Instance io_ret : MRet io := fun _ a => ([], Ok a).
#[global] Instance io_bind : MBind io := fun _ _ f m =>
  match m with
  | (t, Ok a) => let '(t', r) := f a in ((t ++ t')%list, r)
  | (t, Raise e) => (t, Raise e)
  end.

Definition lift {A} (r : result A) : io A := ([], r).
Definition perform (e : effect) : io unit := ([e], Ok tt).

Record request : Type := {
  path : string;
  content_length : option string;   (* the Content-Length header, if sent *)
  rfile : string                    (* the bytes that follow the headers *)
}.

(** ** Stand-ins for the builtins, for evaluating the handler *)

Module Sample.

Definition digit (c : ascii) : option Z :=
  let n := nat_of_ascii c in
  if ((48 <=? n) && (n <=? 57))%nat then Some (Z.of_nat n - 48) else None.

(** A run of decimal digits: its value and its length. *)
Fixpoint digits (acc : Z) (len : nat) (s : string) : option (Z * nat) :=
  match s with
  | EmptyString => if (len =? 0)%nat then None else Some (acc, len)
  | String c s' =>
      match digit c with
      | Some d => digits (10 * acc + d) (S len) s'
      | None => None
      end
  end.

(** A plain decimal numeral. *)
Definition numeral (s : string) : option Z :=
  fst <$> digits 0 0 s.

(** [int] on decimal numerals with or without a minus sign. *)
Definition int_of_string (s : string) : option Z :=
  match s with
  | String "-" s' => Z.opp <$> numeral s'
  | _ => numeral s
  end.

(** [float] on numerals [digits.digits] and [digits], as exact
    rationals. *)
Definition float_of_string (s : string) : option Q :=
  match Str.split "." s with
  | [i] => (fun n => inject_Z n) <$> numeral i
  | [i; f] =>
      match numeral i, digits 0 0 f with
      | Some n, Some (m, k) =>
          Some (Qred (inject_Z n + Qmake m (Pos.pow 10 (Pos.of_nat k))))
      | _, _ => None
      end
  | _ => None
  end.

Definition quote : ascii := "034"%char.

(** The characters up to the closing quote, and what follows it. *)
Fixpoint quoted (s : string) : option (string * string) :=
  match s with
  | EmptyString => None
  | String c s' =>
      if Ascii.eqb c quote then Some (EmptyString, s')
      else '(w, rest) ← quoted s'; Some (String c w, rest)
  end.

Definition expect (c : ascii) (s : string) : option string :=
  match Str.lstrip s with
  | String d s' => if Ascii.eqb c d then Some s' else None
  | EmptyString => None
  end.

(** [json.loads] on [null], on the empty object and on objects of one
    string member. *)
Definition json_loads (s : string) : result (value Q) :=
  let parsed : option (value Q) :=
    if String.eqb (Str.strip s) "null" then Some VNone else
    s1 ← expect "{" s;
    match expect "}" s1 with
    | Some s2 =>
        if String.eqb (Str.lstrip s2) EmptyString then Some (VDict ∅) else None
    | None =>
        s2 ← expect quote s1;
        '(k, s3) ← quoted s2;
        s4 ← expect ":" s3;
        s5 ← expect quote s4;
        '(v, s6) ← quoted s5;
        s7 ← expect "}" s6;
        if String.eqb (Str.lstrip s7) EmptyString
        then Some (VDict {[ k := VStr v ]}) else None
    end in
  match parsed with
  | Some v => Ok v
  | None => Raise JSONDecodeError
  end.

(** The body of one member, [type], of value [custom]. *)
Definition body_custom : string :=
  "{" +:+ String quote "type" +:+ String quote ":"
      +:+ String quote "custom" +:+ String quote "}".

(** A machine with the two files, without the script, at time 0. *)
Definition machine (results cpu : file) : world Q :=
  {| baseline_summary := results; cpuinfo := cpu; script := Absent;
     script_path := "/srv/arm_benchmarking/scripts/03/run-baseline.sh";
     now := 0%Q |}.

(** The same machine with the script in the state [st]. *)
Definition machine_with (st : script_state) : world Q :=
  {| baseline_summary := Missing; cpuinfo := Missing; script := st;
     script_path := "/srv/arm_benchmarking/scripts/03/run-baseline.sh";
     now := 0%Q |}.

(** The largest [Py_ssize_t] and the largest allocation of a machine. *)
Definition ssize_max : Z := 2 ^ 63 - 1.
Definition alloc_max : Z := 2 ^ 34.

(** A static file handler that answers 404 throughout. *)
Definition no_files {R : Type} (not_found : R) (p : string) : io R :=
  ([], Ok not_found).

Definition get (p : string) : request :=
  {| path := p; content_length := None; rfile := EmptyString |}.

Definition post (p : string) (len : option string) (body : string) : request :=
  {| path := p; content_length := len; rfile := body |}.

End Sample.

(** ** The handler *)

Section Dashboard.

(** Binary64 numbers, the value of a decimal literal of the source, and
    the builtins [float(s)] and [int(s)] ([None] is [ValueError]) and
    [json.loads(b.decode('utf-8'))]. *)
Variable float : Type.
Variable of_decimal : Q -> float.
Variable float_of_string : string -> option float.
Variable int_of_string : string -> option Z.
Variable json_loads : string -> result (value float).

(** The largest [Py_ssize_t], the largest byte string the process can
    allocate, and the levels the recursion limit leaves to the encoder of
    [json.dumps] beyond the three of the handler's own objects. *)
Variable ssize_max : Z.
Variable alloc_max : Z.
Variable encoder_headroom : nat.

Definition float_ (s : string) : result float :=
  match float_of_string s with
  | Some x => Ok x
  | None => Raise ValueError
  end.

(** [int(self.headers['Content-Length'])]: a header that was not sent
    reads as [None]. *)
Definition int_ (header : option string) : result Z :=
  match header with
  | None => Raise TypeError
  | Some s =>
      match int_of_string s with
      | Some n => Ok n
      | None => Raise ValueError
      end
  end.

(** *** [get_benchmark_data] *)

(** The body of [for line in f], on the mapping [data['baseline']]. *)
Definition baseline_line (baseline : gmap string float) (line : string)
  : result (gmap string float) :=
  if Str.contains ":" line && Str.contains "GFLOPS" line then
    let parts := Str.split ":" (Str.strip line) in
    p0 ← getitem parts 0;
    let size := Str.strip p0 in
    p1 ← getitem parts 1;
    gflops_part ← getitem (Str.split_ws (Str.strip p1)) 0;
    x ← float_ gflops_part;
    Ok (<[size := x]> baseline)
  else Ok baseline.

Fixpoint baseline_lines (baseline : gmap string float) (ls : list string)
  : result (gmap string float) :=
  match ls with
  | [] => Ok baseline
  | line :: ls' =>
      b ← baseline_line baseline line;
      baseline_lines b ls'
  end.

Definition load_baseline (f : file) : result (gmap string float) :=
  if file_exists f then
    '(ls, failure) ← read_lines f;
    baseline ← baseline_lines ∅ ls;
    match failure with
    | Some e => Raise e
    | None => Ok baseline
    end
  else Ok ∅.

Definition optimization (rank : Z) (gflops time : Q) (opt march size : string)
  : value float :=
  VDict {[ "rank" := VInt rank;
           "gflops" := VFloat (of_decimal gflops);
           "time" := VFloat (of_decimal time);
           "opt" := VStr opt;
           "march" := VStr march;
           "size" := VStr size ]}.

Definition optimizations : list (value float) :=
  [ optimization 1 4.56 0.000 "-O2" "Autodetect" "micro";
    optimization 2 4.50 0.000 "-O3" "None" "micro";
    optimization 3 2.59 0.104 "-O3" "V2" "small" ].

Definition get_benchmark_data (w : world float) : result (gmap string (value float)) :=
  baseline ← load_baseline (baseline_summary w);
  Ok {[ "baseline" := VDict (VFloat <$> baseline);
        "optimizations" := VList optimizations;
        "timestamp" := VFloat (now w) ]}.


(** A line without a colon or without [GFLOPS]. *)
Definition unmarked (line : string) : Prop :=
  Str.contains ":" line = false \/ Str.contains "GFLOPS" line = false.

(** The guard of the loop body. *)
Definition marked (line : string) : bool :=
  Str.contains ":" line && Str.contains "GFLOPS" line.

(** *** [get_system_info] *)

(** The body of [for line in cpuinfo.split('\n')], on the pair of
    [processor] and [cores]. *)
Definition cpuinfo_line (st : string * Z) (line : string) : result (string * Z) :=
  let '(processor, cores) := st in
  if Str.contains "model name" (Str.lower line) then
    p1 ← getitem (Str.split ":" line) 1;
    Ok (Str.strip p1, cores)
  else if Str.startswith "processor" line then Ok (processor, cores + 1)
  else Ok (processor, cores).

Fixpoint cpuinfo_lines (st : string * Z) (ls : list string) : result (string * Z) :=
  match ls with
  | [] => Ok st
  | line :: ls' =>
      st' ← cpuinfo_line st line;
      cpuinfo_lines st' ls'
  end.

(** The two kinds of line the loop acts on: the first branch, and the
    second branch when the first did not take the line. *)
Definition names_model (line : string) : bool :=
  Str.contains "model name" (Str.lower line).

Definition counts_core (line : string) : bool :=
  negb (names_model line) && Str.startswith "processor" line.

(** A line that one of the two branches takes. *)
Definition relevant (line : string) : bool :=
  names_model line || Str.startswith "processor" line.

(** A line on which the first branch does not raise. *)
Definition colon_if_model (line : string) : Prop :=
  names_model line = true -> Str.contains ":" line = true.

(** The scan in the specification's words: the first line whose label is
    [model name], whatever the case, gives the text after its first
    colon, trimmed; every line that begins with [processor] counts. *)
Definition spec_label (line : string) : string :=
  Str.strip (default EmptyString (head (Str.split ":" line))).

Definition spec_after_colon (line : string) : string :=
  Str.strip (Str.join ":" (tail (Str.split ":" line))).

Definition spec_processor (ls : list string) : option string :=
  spec_after_colon <$>
    head (List.filter
            (fun l => String.eqb (Str.lower (spec_label l)) "model name") ls).

Definition spec_cores (ls : list string) : Z :=
  Z.of_nat (length (List.filter (Str.startswith "processor") ls)).

(** The [try] block. *)
Definition system_info_body (w : world float) : result (gmap string (value float)) :=
  text ← read_text (cpuinfo w);
  '(processor, cores) ← cpuinfo_lines ("Unknown", 0) (Str.split Str.LF text);
  Ok {[ "processor" := VStr processor;
        "cores" := VInt cores;
        "timestamp" := VFloat (now w) ]}.

Definition fallback_info : gmap string (value float) :=
  {[ "processor" := VStr "Neoverse System"; "cores" := VInt 16 ]}.

Definition get_system_info (w : world float) : gmap string (value float) :=
  try_except (system_info_body w) fallback_info.

(** *** [run_benchmark] *)

(** The thread's function: what it does once it runs. *)
Definition run_async (w : world float) : list event :=
  match script w with
  | Absent => []
  | Fails e => [PrintFailure e]
  | Runs None => [Exec ["bash"; script_path w]]
  | Runs (Some status) =>
      Exec ["bash"; script_path w] ::
      (if status =? 0 then [] else [PrintFailure CalledProcessError])
  end.

Definition acknowledgement (ty : value float) : gmap string (value float) :=
  {[ "status" := VStr "started"; "type" := ty ]}.

Definition run_benchmark (w : world float) (benchmark_type : value float)
  : io (gmap string (value float)) :=
  _ ← perform (ThreadStart (run_async w));
  mret (acknowledgement benchmark_type).

(** *** Routing *)

(** A response that was sent to its end: a JSON body under a status and
    headers, the error page of [send_error], or a file of the document
    root. *)
Inductive response : Type :=
  | Api (status : Z) (headers : list (string * string)) (data : value float)
  | Error (code : Z)
  | Static (path : string).

(** [SimpleHTTPRequestHandler.do_GET] on a path. *)
Variable super_do_GET : string -> io response.

Definition api_headers : list (string * string) :=
  [("Content-type", "application/json"); ("Access-Control-Allow-Origin", "*")].

(** The response that carries [data], once it is complete. *)
Definition json_response (data : gmap string (value float)) : response :=
  Api 200 api_headers (VDict data).

(** The levels of lists and objects the encoder can descend: the recursion
    limit of the interpreter, which the program never lowers, leaves it the
    three levels of the handler's own objects and [encoder_headroom]
    more. *)
Definition encoder_limit : nat := 3 + encoder_headroom.

(** [json.dumps(data)], as the value it encodes: [RecursionError] when the
    value nests deeper than the encoder can go. *)

Definition json_dumps (v : value float) : result (value float) :=
  if (depth v <=? encoder_limit)%nat then Ok v else Raise RecursionError.

(** The status line and the headers go out before the body is encoded. *)
Definition send_api_response (data : gmap string (value float)) : io response :=
  match json_dumps (VDict data) with
  | Ok body => ([], Ok (Api 200 api_headers body))
  | Raise e => ([HeadSent 200 api_headers], Raise e)
  end.

Definition send_error (code : Z) : response := Error code.

(** [rfile.read(n)] on the bytes that follow the headers, with the
    connection closed after them: a number that is no [Py_ssize_t] raises,
    a number below [-1] is refused, [-1] reads to the end, a number that
    asks for more than can be allocated raises, and otherwise at most [n]
    bytes come. *)
Definition read (n : Z) (stream : string) : result string :=
  if (n <? - ssize_max - 1) || (ssize_max <? n) then Raise OverflowError
  else if n <? -1 then Raise ValueError
  else if n =? -1 then Ok stream
  else if alloc_max <? n then Raise MemoryError
  else Ok (substring 0 (Z.to_nat n) stream).

(** [data.get('type', 'baseline')] *)
Definition get_type (data : value float) : result (value float) :=
  match data with
  | VDict m => Ok (default (VStr "baseline") (m !! "type"))
  | _ => Raise AttributeError
  end.

Definition do_GET (w : world float) (r : request) : io response :=
  if String.eqb (path r) "/api/data" then
    data ← lift (get_benchmark_data w);
    send_api_response data
  else if String.eqb (path r) "/api/system" then
    send_api_response (get_system_info w)
  else super_do_GET (path r).

Definition do_POST (w : world float) (r : request) : io response :=
  if String.eqb (path r) "/api/run-benchmark" then
    n ← lift (int_ (content_length r));
    post_data ← lift (read n (rfile r));
    data ← lift (json_loads post_data);
    ty ← lift (get_type data);
    result ← run_benchmark w ty;
    send_api_response result
  else mret (send_error 404).

(** ** Facts about the string operations *)

Lemma app_cons (c : ascii) (a b : string) :
  String c a +:+ b = String c (a +:+ b).
Proof. reflexivity. Qed.

Lemma app_empty (b : string) : EmptyString +:+ b = b.
Proof. reflexivity. Qed.


Lemma isspace_colon : Str.isspace ":" = false.
Proof. reflexivity. Qed.


Lemma rstrip_cons_nonspace (c : ascii) (s : string) :
  Str.isspace c = false -> Str.rstrip (String c s) = String c (Str.rstrip s).
Proof. intros Hc. simpl. rewrite Hc. by destruct (Str.rstrip s). Qed.




Lemma split_nonempty (sep : ascii) (s : string) :
  exists h t, Str.split sep s = h :: t.
Proof.
  destruct s as [|c s]; simpl; [by eauto|].
  destruct (Ascii.eqb c sep); [by eauto|].
  destruct (Str.split sep s); eauto.
Qed.

(** [c in a] and [c not in a] for one character. *)
Lemma contains_char_cons (c x : ascii) (s : string) :
  Str.contains (String c EmptyString) (String x s)
  = Ascii.eqb c x || Str.contains (String c EmptyString) s.
Proof. simpl. by rewrite andb_true_r. Qed.



Lemma split_first (sep : ascii) (a y : string) :
  Str.contains (String sep EmptyString) a = false ->
  Str.split sep (a +:+ String sep y) = a :: Str.split sep y.
Proof.
  intros Ha. induction a as [|x a IH].
  - rewrite app_empty. simpl. by rewrite Ascii.eqb_refl.
  - rewrite contains_char_cons in Ha. apply orb_false_elim in Ha as [Hx Ha].
    rewrite app_cons. simpl. rewrite Ascii.eqb_sym, Hx, (IH Ha). done.
Qed.

(** A string with the character splits around its first occurrence. *)
Lemma contains_char_split (c : ascii) (s : string) :
  Str.contains (String c EmptyString) s = true ->
  exists a b, s = a +:+ String c b
              /\ Str.contains (String c EmptyString) a = false.
Proof.
  induction s as [|x s IH]; [done|].
  rewrite contains_char_cons. destruct (Ascii.eqb c x) eqn:E.
  - apply Ascii.eqb_eq in E as <-. intros _. by exists EmptyString, s.
  - simpl. intros (a & b & -> & Ha)%IH. exists (String x a), b.
    split; [done|]. rewrite contains_char_cons, E. done.
Qed.



(** [s.strip().split()] is [s.split()]. *)
Lemma split_ws_lstrip (s : string) : Str.split_ws (Str.lstrip s) = Str.split_ws s.
Proof.
  induction s as [|c s IH]; [done|]. simpl.
  destruct (Str.isspace c) eqn:E; [done|]. simpl. by rewrite E.
Qed.

Lemma rstrip_empty_split_ws (s : string) :
  Str.rstrip s = EmptyString -> Str.split_ws s = [].
Proof.
  induction s as [|c s IH]; [done|]. simpl.
  destruct (Str.rstrip s) eqn:E; [|done].
  destruct (Str.isspace c); [auto | done].
Qed.

Lemma split_ws_rstrip (s : string) : Str.split_ws (Str.rstrip s) = Str.split_ws s.
Proof.
  induction s as [|c s IH]; [done|].
  destruct (Str.rstrip s) as [|d r] eqn:E.
  - simpl. rewrite E. pose proof (rstrip_empty_split_ws s E) as Hs.
    destruct (Str.isspace c) eqn:Hc; simpl; [by rewrite Hs|].
    rewrite Hc. destruct s as [|x s]; [done|].
    destruct (Str.isspace x) eqn:Hx; [by rewrite Hs|].
    simpl in E. destruct (Str.rstrip s); [by rewrite Hx in E | done].
  - assert (Str.rstrip (String c s) = String c (String d r)) as ->.
    { simpl. by rewrite E. }
    change (Str.split_ws (String c (String d r)))
      with (if Str.isspace c then Str.split_ws (String d r)
            else if Str.isspace d
                 then String c EmptyString :: Str.split_ws (String d r)
                 else match Str.split_ws (String d r) with
                      | w :: ws => String c w :: ws
                      | [] => [String c EmptyString]
                      end).
    rewrite IH. destruct s as [|x s]; [done|].
    assert (x = d) as ->.
    { simpl in E. destruct (Str.rstrip s); [destruct (Str.isspace x)|];
        congruence. }
    done.
Qed.

Lemma split_ws_strip (s : string) : Str.split_ws (Str.strip s) = Str.split_ws s.
Proof. unfold Str.strip. by rewrite split_ws_rstrip, split_ws_lstrip. Qed.

Lemma contains_char_lstrip (c : ascii) (s : string) :
  Str.isspace c = false ->
  Str.contains (String c EmptyString) (Str.lstrip s)
  = Str.contains (String c EmptyString) s.
Proof.
  intros Hc. induction s as [|x s IH]; [done|].
  rewrite contains_char_cons. simpl. destruct (Str.isspace x) eqn:Hx.
  - rewrite IH. destruct (Ascii.eqb_spec c x) as [->|]; [congruence | done].
  - by rewrite contains_char_cons.
Qed.

Lemma contains_char_rstrip (c : ascii) (s : string) :
  Str.isspace c = false ->
  Str.contains (String c EmptyString) (Str.rstrip s)
  = Str.contains (String c EmptyString) s.
Proof.
  intros Hc. induction s as [|x s IH]; [done|].
  rewrite contains_char_cons, <- IH. simpl.
  destruct (Str.rstrip s) as [|d r].
  - destruct (Str.isspace x) eqn:Hx.
    + destruct (Ascii.eqb_spec c x) as [->|]; [congruence | done].
    + by rewrite contains_char_cons.
  - by rewrite (contains_char_cons c x).
Qed.

Lemma contains_char_strip (c : ascii) (s : string) :
  Str.isspace c = false ->
  Str.contains (String c EmptyString) (Str.strip s)
  = Str.contains (String c EmptyString) s.
Proof.
  intros Hc. unfold Str.strip.
  by rewrite contains_char_rstrip, contains_char_lstrip.
Qed.



(** ** Further facts about the string operations *)

Lemma rstrip_blank (t : string) : Str.blank t = true -> Str.rstrip t = EmptyString.
Proof.
  induction t as [|c t IH]; [done|]. intros [Hc Ht]%andb_prop.
  simpl. by rewrite (IH Ht), Hc.
Qed.

Lemma lstrip_blank (t : string) : Str.blank t = true -> Str.lstrip t = EmptyString.
Proof.
  induction t as [|c t IH]; [done|]. intros [Hc Ht]%andb_prop.
  simpl. by rewrite Hc, (IH Ht).
Qed.

Lemma rstrip_app_blank (s t : string) :
  Str.blank t = true -> Str.rstrip (s +:+ t) = Str.rstrip s.
Proof.
  intros Ht. induction s as [|c s IH].
  - rewrite app_empty. by apply rstrip_blank.
  - rewrite app_cons. simpl. by rewrite IH.
Qed.

Lemma lstrip_blank_app (t s : string) :
  Str.blank t = true -> Str.lstrip (t +:+ s) = Str.lstrip s.
Proof.
  induction t as [|c t IH]; [done|]. intros [Hc Ht]%andb_prop.
  rewrite app_cons. simpl. rewrite Hc. by apply IH.
Qed.

Lemma strip_app_blank (s t : string) :
  Str.blank t = true -> Str.strip (s +:+ t) = Str.strip s.
Proof.
  intros Ht. unfold Str.strip. induction s as [|c s IH].
  - rewrite app_empty. by rewrite (lstrip_blank _ Ht).
  - rewrite app_cons. simpl. destruct (Str.isspace c); [exact IH|].
    by rewrite <- app_cons, rstrip_app_blank.
Qed.

Lemma strip_pad (pre s post : string) :
  Str.blank pre = true -> Str.blank post = true ->
  Str.strip (pre +:+ s +:+ post) = Str.strip s.
Proof.
  intros Hpre Hpost. rewrite <- (strip_app_blank s post Hpost).
  unfold Str.strip. by rewrite lstrip_blank_app.
Qed.

Lemma startswith_app_blank (p u t : string) :
  Str.all (fun c => negb (Str.isspace c)) p = true ->
  Str.blank t = true ->
  Str.startswith p (u +:+ t) = Str.startswith p u.
Proof.
  intros Hp Ht. revert u. induction p as [|x p IH]; intros u; [done|].
  simpl in Hp. apply andb_prop in Hp as [Hx Hp]. apply negb_true_iff in Hx.
  destruct u as [|c u].
  - rewrite app_empty. destruct t as [|y t]; [done|].
    simpl in Ht. apply andb_prop in Ht as [Hy _]. simpl.
    destruct (Ascii.eqb_spec x y) as [->|]; [congruence | done].
  - rewrite app_cons. simpl. by rewrite (IH Hp).
Qed.

Lemma startswith_blank_head (p t s : string) (y : ascii) :
  p <> EmptyString ->
  Str.all (fun c => negb (Str.isspace c)) p = true ->
  Str.isspace y = true ->
  Str.startswith p (String y s) = false.
Proof.
  intros Hne Hp Hy. destruct p as [|x p]; [done|].
  simpl in Hp. apply andb_prop in Hp as [Hx _]. apply negb_true_iff in Hx.
  simpl. destruct (Ascii.eqb_spec x y) as [->|]; [congruence | done].
Qed.

Lemma contains_blank_app (p t s : string) :
  p <> EmptyString ->
  Str.all (fun c => negb (Str.isspace c)) p = true ->
  Str.blank t = true ->
  Str.contains p (t +:+ s) = Str.contains p s.
Proof.
  intros Hne Hp. induction t as [|y t IH]; [done|]. intros [Hy Ht]%andb_prop.
  rewrite app_cons.
  change (Str.contains p (String y (t +:+ s)))
    with (Str.startswith p (String y (t +:+ s)) || Str.contains p (t +:+ s)).
  by rewrite (startswith_blank_head p t _ y Hne Hp Hy), (IH Ht).
Qed.

Lemma contains_blank (p t : string) :
  p <> EmptyString ->
  Str.all (fun c => negb (Str.isspace c)) p = true ->
  Str.blank t = true ->
  Str.contains p t = false.
Proof.
  intros Hne Hp. induction t as [|y t IH].
  - intros _. by destruct p.
  - intros [Hy Ht]%andb_prop.
    change (Str.contains p (String y t))
      with (Str.startswith p (String y t) || Str.contains p t).
    by rewrite (startswith_blank_head p t _ y Hne Hp Hy), (IH Ht).
Qed.

Lemma contains_app_blank (p s t : string) :
  p <> EmptyString ->
  Str.all (fun c => negb (Str.isspace c)) p = true ->
  Str.blank t = true ->
  Str.contains p (s +:+ t) = Str.contains p s.
Proof.
  intros Hne Hp Ht. induction s as [|c s IH].
  - rewrite app_empty, (contains_blank p t Hne Hp Ht). by destruct p.
  - rewrite app_cons.
    change (Str.contains p (String c (s +:+ t)))
      with (Str.startswith p (String c (s +:+ t)) || Str.contains p (s +:+ t)).
    rewrite <- app_cons, (startswith_app_blank p (String c s) t Hp Ht), IH. done.
Qed.

Lemma contains_pad (p pre s post : string) :
  p <> EmptyString ->
  Str.all (fun c => negb (Str.isspace c)) p = true ->
  Str.blank pre = true -> Str.blank post = true ->
  Str.contains p (pre +:+ s +:+ post) = Str.contains p s.
Proof.
  intros Hne Hp Hpre Hpost.
  by rewrite (contains_blank_app p pre _ Hne Hp Hpre),
             (contains_app_blank p s post Hne Hp Hpost).
Qed.

Lemma rstrip_idemp (s : string) : Str.rstrip (Str.rstrip s) = Str.rstrip s.
Proof.
  induction s as [|c s IH]; [done|]. simpl.
  destruct (Str.rstrip s) as [|d r] eqn:E.
  - destruct (Str.isspace c) eqn:Hc; [done|]. simpl. by rewrite Hc.
  - change (Str.rstrip (String c (String d r)))
      with (match Str.rstrip (String d r) with
            | EmptyString =>
                if Str.isspace c then EmptyString else String c EmptyString
            | r' => String c r'
            end).
    by rewrite IH.
Qed.

Lemma lstrip_head (s : string) :
  Str.lstrip s = EmptyString
  \/ exists c u, Str.lstrip s = String c u /\ Str.isspace c = false.
Proof.
  induction s as [|c s IH]; [by left|]. simpl.
  destruct (Str.isspace c) eqn:Hc; [exact IH|]. right. by exists c, s.
Qed.

Lemma strip_idemp (s : string) : Str.strip (Str.strip s) = Str.strip s.
Proof.
  unfold Str.strip. destruct (lstrip_head s) as [-> | (c & u & -> & Hc)]; [done|].
  rewrite (rstrip_cons_nonspace c u Hc). simpl. rewrite Hc.
  rewrite <- (rstrip_cons_nonspace c u Hc). apply rstrip_idemp.
Qed.

Lemma split_head_no_sep (sep : ascii) (s h : string) (t : list string) :
  Str.split sep s = h :: t -> Str.contains (String sep EmptyString) h = false.
Proof.
  revert h t. induction s as [|c s IH]; intros h t; simpl.
  - by intros [= <- <-].
  - destruct (Ascii.eqb c sep) eqn:E; [by intros [= <- <-]|].
    destruct (Str.split sep s) as [|w ws] eqn:Hs.
    + intros [= <- <-]. rewrite contains_char_cons, Ascii.eqb_sym, E. done.
    + intros [= <- <-]. rewrite contains_char_cons, Ascii.eqb_sym, E.
      by apply (IH w ws).
Qed.

(** ** The results reader *)

(** What the loop body does with a line that has both marks. *)
Lemma baseline_line_marked (b : gmap string float) (line : string) :
  Str.contains ":" line = true ->
  Str.contains "GFLOPS" line = true ->
  exists p0 p1 rest,
    Str.split ":" (Str.strip line) = p0 :: p1 :: rest
    /\ baseline_line b line =
       match Str.split_ws p1 with
       | [] => Raise IndexError
       | tok :: _ =>
           match float_of_string tok with
           | Some x => Ok (<[Str.strip p0 := x]> b)
           | None => Raise ValueError
           end
       end.
Proof.
  intros Hc Hg. unfold baseline_line. rewrite Hc, Hg. simpl.
  rewrite <- (contains_char_strip ":" line isspace_colon) in Hc.
  apply contains_char_split in Hc as (a & y & -> & Ha).
  rewrite (split_first _ _ _ Ha).
  destruct (split_nonempty ":" y) as (h & t & ->).
  exists a, h, t. split; [done|]. simpl.
  rewrite split_ws_strip. destruct (Str.split_ws h) as [|tok ws]; [done|].
  simpl. unfold float_. by destruct (float_of_string tok).
Qed.

Lemma baseline_line_unmarked (b : gmap string float) (line : string) :
  unmarked line -> baseline_line b line = Ok b.
Proof.
  unfold baseline_line. intros [-> | ->]; [done|]. by rewrite andb_false_r.
Qed.




Lemma baseline_lines_app (b : gmap string float) (l1 l2 : list string) :
  baseline_lines b (l1 ++ l2)
  = b' ← baseline_lines b l1; baseline_lines b' l2.
Proof.
  revert b. induction l1 as [|l l1 IH]; intros b; simpl; [done|].
  destruct (baseline_line b l); simpl; [apply IH | done].
Qed.



(** A line does one of three things, whatever the mapping it meets. *)
Lemma baseline_line_shape (line : string) :
  (marked line = false /\ forall b, baseline_line b line = Ok b)
  \/ (marked line = true
      /\ exists k x, Str.strip k = k /\ Str.contains ":" k = false
                     /\ forall b, baseline_line b line = Ok (<[k := x]> b))
  \/ (marked line = true
      /\ exists e, (e = IndexError \/ e = ValueError)
                   /\ forall b, baseline_line b line = Raise e).
Proof.
  destruct (marked line) eqn:Hm.
  - right. unfold marked in Hm. apply andb_prop in Hm as [Hc Hg].
    destruct (baseline_line_marked ∅ line Hc Hg) as (p0 & p1 & rest & Hs & _).
    assert (forall b, baseline_line b line =
                      match Str.split_ws p1 with
                      | [] => Raise IndexError
                      | tok :: _ =>
                          match float_of_string tok with
                          | Some x => Ok (<[Str.strip p0 := x]> b)
                          | None => Raise ValueError
                          end
                      end) as Hb.
    { intros b.
      destruct (baseline_line_marked b line Hc Hg) as (q0 & q1 & r & Hs' & ->).
      rewrite Hs in Hs'. by injection Hs' as <- <- <-. }
    destruct (Str.split_ws p1) as [|tok ws].
    { right. split; [done|]. exists IndexError. split; [by left | done]. }
    destruct (float_of_string tok) as [x|].
    + left. split; [done|]. exists (Str.strip p0), x.
      split; [apply strip_idemp|]. split; [|done].
      rewrite contains_char_strip by done. by apply (split_head_no_sep _ _ _ _ Hs).
    + right. split; [done|]. exists ValueError. split; [by right | done].
  - left. split; [done|]. intros b. unfold baseline_line.
    unfold marked in Hm. by rewrite Hm.
Qed.

Lemma load_baseline_text (text : string) :
  load_baseline (Text text)
  = baseline_lines ∅ (Str.lines (Str.translate_newlines text)).
Proof.
  unfold load_baseline. cbn [file_exists read_lines mbind result_bind].
  by destruct (baseline_lines _ _).
Qed.


(** A line goes through or not, whatever the mapping it meets. *)
Lemma baseline_lines_total (b : gmap string float) (ls : list string) :
  Forall (fun l => exists m, baseline_line ∅ l = Ok m) ls ->
  exists m, baseline_lines b ls = Ok m.
Proof.
  intros Hls. revert b. induction Hls as [|l ls [m0 Hl] _ IH]; intros b.
  { by exists b. }
  cbn [baseline_lines].
  destruct (baseline_line_shape l)
    as [[_ H] | [(_ & k & x & _ & _ & H) | (_ & e & _ & H)]].
  - rewrite H. cbn [mbind result_bind]. apply IH.
  - rewrite H. cbn [mbind result_bind]. apply IH.
  - by rewrite H in Hl.
Qed.


(** ** The system information reporter *)

Lemma cpuinfo_lines_app (st : string * Z) (l1 l2 : list string) :
  cpuinfo_lines st (l1 ++ l2)
  = st' ← cpuinfo_lines st l1; cpuinfo_lines st' l2.
Proof.
  revert st. induction l1 as [|l l1 IH]; intros st; simpl; [done|].
  destruct (cpuinfo_line st l); simpl; [apply IH | done].
Qed.

Lemma core_count_cons (l : string) (ls : list string) :
  Z.of_nat (length (List.filter counts_core (l :: ls)))
  = (if counts_core l then 1 else 0)
    + Z.of_nat (length (List.filter counts_core ls)).
Proof. simpl. destruct (counts_core l); simpl; lia. Qed.

Lemma core_count_app (l1 l2 : list string) :
  Z.of_nat (length (List.filter counts_core (l1 ++ l2)))
  = Z.of_nat (length (List.filter counts_core l1))
    + Z.of_nat (length (List.filter counts_core l2)).
Proof. rewrite List.filter_app, length_app. lia. Qed.

(** A line with a colon has a second piece. *)
Lemma split_second (line : string) :
  Str.contains ":" line = true ->
  exists a b rest, Str.split ":" line = a :: b :: rest.
Proof.
  intros (a & y & -> & Ha)%contains_char_split.
  rewrite (split_first _ _ _ Ha).
  destruct (split_nonempty ":" y) as (h & t & ->). eauto.
Qed.

Lemma split_no_colon (line : string) :
  Str.contains ":" line = false -> Str.split ":" line = [line].
Proof.
  induction line as [|c line IH]; [done|].
  rewrite contains_char_cons. intros [Hc Hl]%orb_false_elim.
  simpl. rewrite Ascii.eqb_sym, Hc, (IH Hl). done.
Qed.

Lemma cpuinfo_line_model (p : string) (c : Z) (line a b : string) rest :
  names_model line = true ->
  Str.split ":" line = a :: b :: rest ->
  cpuinfo_line (p, c) line = Ok (Str.strip b, c).
Proof.
  unfold cpuinfo_line, names_model. intros -> ->. done.
Qed.

Lemma cpuinfo_line_model_no_colon (st : string * Z) (line : string) :
  names_model line = true ->
  Str.contains ":" line = false ->
  cpuinfo_line st line = Raise IndexError.
Proof.
  unfold cpuinfo_line, names_model. destruct st as [p c].
  intros -> Hc. by rewrite (split_no_colon _ Hc).
Qed.

Lemma cpuinfo_line_other (p : string) (c : Z) (line : string) :
  names_model line = false ->
  cpuinfo_line (p, c) line = Ok (p, c + (if counts_core line then 1 else 0)).
Proof.
  unfold cpuinfo_line, counts_core, names_model. intros ->.
  cbn [negb andb].
  destruct (Str.startswith "processor" line); [done|]. by rewrite Z.add_0_r.
Qed.

Lemma counts_core_model (line : string) :
  names_model line = true -> counts_core line = false.
Proof. unfold counts_core. by intros ->. Qed.

(** Lines that do not name the model only count cores. *)
Lemma cpuinfo_lines_no_model (p : string) (c : Z) (ls : list string) :
  Forall (fun l => names_model l = false) ls ->
  cpuinfo_lines (p, c) ls
  = Ok (p, c + Z.of_nat (length (List.filter counts_core ls))).
Proof.
  intros Hls. revert c. induction Hls as [|l ls Hl _ IH]; intros c.
  - simpl. by rewrite Z.add_0_r.
  - rewrite core_count_cons. cbn [cpuinfo_lines].
    rewrite (cpuinfo_line_other _ _ _ Hl). cbn [mbind result_bind].
    rewrite IH. by rewrite Z.add_assoc.
Qed.

(** The scan goes through when every line that names the model has a
    colon, and then the count is that of the core lines. *)
Lemma cpuinfo_lines_ok (p : string) (c : Z) (ls : list string) :
  Forall colon_if_model ls ->
  exists p', cpuinfo_lines (p, c) ls
             = Ok (p', c + Z.of_nat (length (List.filter counts_core ls))).
Proof.
  intros Hls. revert p c. induction Hls as [|l ls Hl _ IH]; intros p c.
  - exists p. simpl. by rewrite Z.add_0_r.
  - rewrite core_count_cons. cbn [cpuinfo_lines].
    destruct (names_model l) eqn:Hm.
    + destruct (split_second l (Hl Hm)) as (a & b & rest & Hs).
      rewrite (cpuinfo_line_model _ _ _ _ _ _ Hm Hs). cbn [mbind result_bind].
      destruct (IH (Str.strip b) c) as (p' & ->). exists p'.
      by rewrite (counts_core_model _ Hm).
    + rewrite (cpuinfo_line_other _ _ _ Hm). cbn [mbind result_bind].
      destruct (IH p (c + (if counts_core l then 1 else 0))) as (p' & ->).
      exists p'. by rewrite Z.add_assoc.
Qed.

(** The last line that names the model decides the processor. *)
Lemma cpuinfo_lines_last_model (p : string) (c : Z) pre line post a b rest :
  Forall colon_if_model pre ->
  names_model line = true ->
  Str.split ":" line = a :: b :: rest ->
  Forall (fun l => names_model l = false) post ->
  cpuinfo_lines (p, c) (pre ++ line :: post)
  = Ok (Str.strip b,
        c + Z.of_nat (length (List.filter counts_core (pre ++ line :: post)))).
Proof.
  intros Hpre Hm Hs Hpost.
  rewrite cpuinfo_lines_app, core_count_app, core_count_cons.
  destruct (cpuinfo_lines_ok p c pre Hpre) as (p' & ->).
  cbn [mbind result_bind cpuinfo_lines].
  rewrite (cpuinfo_line_model _ _ _ _ _ _ Hm Hs). cbn [mbind result_bind].
  rewrite (cpuinfo_lines_no_model _ _ _ Hpost).
  rewrite (counts_core_model _ Hm). do 2 f_equal. lia.
Qed.

Lemma cpuinfo_lines_raise (st : string * Z) pre line post :
  Forall colon_if_model pre ->
  names_model line = true ->
  Str.contains ":" line = false ->
  cpuinfo_lines st (pre ++ line :: post) = Raise IndexError.
Proof.
  intros Hpre Hm Hc. destruct st as [p c]. rewrite cpuinfo_lines_app.
  destruct (cpuinfo_lines_ok p c pre Hpre) as (p' & ->).
  cbn [mbind result_bind cpuinfo_lines].
  by rewrite cpuinfo_line_model_no_colon.
Qed.

(** ** The claims about the results reader *)

Lemma get_benchmark_data_ok (w : world float) (m : gmap string float) :
  load_baseline (baseline_summary w) = Ok m ->
  get_benchmark_data w
  = Ok {[ "baseline" := VDict (VFloat <$> m);
          "optimizations" := VList optimizations;
          "timestamp" := VFloat (now w) ]}.
Proof. unfold get_benchmark_data. by intros ->. Qed.

Lemma get_benchmark_data_raise (w : world float) (e : exn) :
  load_baseline (baseline_summary w) = Raise e ->
  get_benchmark_data w = Raise e.
Proof. unfold get_benchmark_data. by intros ->. Qed.


Lemma get_benchmark_data_text (w : world float) text (m : gmap string float) :
  baseline_summary w = Text text ->
  baseline_lines ∅ (Str.lines (Str.translate_newlines text)) = Ok m ->
  get_benchmark_data w
  = Ok {[ "baseline" := VDict (VFloat <$> m);
          "optimizations" := VList optimizations;
          "timestamp" := VFloat (now w) ]}.
Proof.
  intros Hw Hm. apply get_benchmark_data_ok. by rewrite Hw, load_baseline_text.
Qed.



(** C2, as the code has it. A line without a colon or without [GFLOPS] is
    passed over without an error.  A line with both is cut at its colons:
    when the piece after the first colon holds no word the line raises
    [IndexError], when [float] rejects its first word the line raises
    [ValueError], otherwise the entry is made.  An error of a line is the
    error of [get_benchmark_data], and [GET /api/data] then ends in that
    error without a response. *)
Theorem malformed_marked_line_raises :
  (forall b line, unmarked line -> baseline_line b line = Ok b)
  /\ (forall b line,
         Str.contains ":" line = true ->
         Str.contains "GFLOPS" line = true ->
         exists p0 p1 rest,
           Str.split ":" (Str.strip line) = p0 :: p1 :: rest
           /\ baseline_line b line =
              match Str.split_ws p1 with
              | [] => Raise IndexError
              | tok :: _ =>
                  match float_of_string tok with
                  | Some x => Ok (<[Str.strip p0 := x]> b)
                  | None => Raise ValueError
                  end
              end)
  /\ (forall w text pre line post m e r,
         baseline_summary w = Text text ->
         Str.lines (Str.translate_newlines text) = (pre ++ line :: post)%list ->
         baseline_lines ∅ pre = Ok m ->
         baseline_line m line = Raise e ->
         path r = "/api/data" ->
         get_benchmark_data w = Raise e /\ do_GET w r = ([], Raise e)).
Proof.
  split; [exact baseline_line_unmarked|].
  split; [exact baseline_line_marked|].
  intros w text pre line post m e r Hw Hlines Hpre Hline Hr.
  assert (get_benchmark_data w = Raise e) as Hdata.
  { apply get_benchmark_data_raise. rewrite Hw, load_baseline_text.
    rewrite Hlines, baseline_lines_app, Hpre.
    cbn [mbind result_bind baseline_lines]. by rewrite Hline. }
  split; [done|]. unfold do_GET. rewrite Hr, Hdata. done.
Qed.

(** C3, as the code has it. Without the results file, [get_benchmark_data]
    returns the empty baseline and the fixed list of three optimisation
    records, of ranks 1, 2 and 3.  The same list is in every result that is
    returned, and one is returned for every file all of whose lines go
    through the loop; for a file with a line that raises, and for one that
    cannot be read, [get_benchmark_data] raises and returns no list. *)
Theorem missing_file_gives_empty_baseline :
  (forall w,
      baseline_summary w = Missing ->
      get_benchmark_data w
      = Ok {[ "baseline" := VDict ∅;
              "optimizations" := VList optimizations;
              "timestamp" := VFloat (now w) ]})
  /\ length optimizations = 3%nat
  /\ (fun o => match o with VDict m => m !! "rank" | _ => None end)
       <$> optimizations
     = [Some (VInt 1); Some (VInt 2); Some (VInt 3)]
  /\ (forall w d,
         get_benchmark_data w = Ok d ->
         d !! "optimizations" = Some (VList optimizations))
  /\ (forall w text,
         baseline_summary w = Text text ->
         Forall (fun l => exists m, baseline_line ∅ l = Ok m)
                (Str.lines (Str.translate_newlines text)) ->
         exists d, get_benchmark_data w = Ok d
                   /\ d !! "optimizations" = Some (VList optimizations))
  /\ (forall w text pre line post m e,
         baseline_summary w = Text text ->
         Str.lines (Str.translate_newlines text) = (pre ++ line :: post)%list ->
         baseline_lines ∅ pre = Ok m ->
         baseline_line m line = Raise e ->
         get_benchmark_data w = Raise e)
  /\ (forall w e,
         baseline_summary w = Unreadable e -> get_benchmark_data w = Raise e).
Proof.
  split.
  { intros w Hw. rewrite (get_benchmark_data_ok w ∅).
    - by rewrite fmap_empty.
    - by rewrite Hw. }
  split; [done|]. split; [done|].
  split.
  { intros w d. unfold get_benchmark_data.
    destruct (load_baseline (baseline_summary w)); [|done].
    cbn [mbind result_bind]. intros [= <-]. done. }
  split.
  { intros w text Hw Hls. destruct (baseline_lines_total ∅ _ Hls) as [m Hm].
    eexists. split; [by apply (get_benchmark_data_text w text m)|]. done. }
  split.
  { intros w text pre line post m e Hw Hlines Hpre Hline.
    apply get_benchmark_data_raise. rewrite Hw, load_baseline_text.
    rewrite Hlines, baseline_lines_app, Hpre.
    cbn [mbind result_bind baseline_lines]. by rewrite Hline. }
  intros w e Hw. apply get_benchmark_data_raise. by rewrite Hw.
Qed.


(** ** The claims about the system information reporter *)

Lemma system_info_of_scan (w : world float) (text p : string) (c : Z) :
  cpuinfo w = Text text ->
  cpuinfo_lines ("Unknown", 0) (Str.split Str.LF (Str.translate_newlines text))
  = Ok (p, c) ->
  get_system_info w
  = {[ "processor" := VStr p; "cores" := VInt c; "timestamp" := VFloat (now w) ]}.
Proof.
  intros Hw Hscan. unfold get_system_info, system_info_body.
  rewrite Hw. cbn [read_text mbind result_bind]. by rewrite Hscan.
Qed.

Lemma system_info_of_raise (w : world float) (e : exn) :
  system_info_body w = Raise e -> get_system_info w = fallback_info.
Proof. unfold get_system_info. by intros ->. Qed.

(** The encoder goes through on the object of [get_system_info]. *)
Lemma send_system_info (w : world float) :
  send_api_response (get_system_info w)
  = ([], Ok (json_response (get_system_info w))).
Proof.
  unfold get_system_info, system_info_body.
  destruct (read_text (cpuinfo w)) as [text|e]; cbn [mbind result_bind]; [|done].
  destruct (cpuinfo_lines _ _) as [[p c]|e]; cbn [mbind result_bind]; done.
Qed.

Lemma split_two (a b : string) :
  Str.contains ":" a = false ->
  Str.contains ":" b = false ->
  Str.split ":" (a +:+ ":" +:+ b) = [a; b].
Proof.
  intros Ha Hb. change (a +:+ ":" +:+ b) with (a +:+ String ":" b).
  by rewrite (split_first _ _ _ Ha), (split_no_colon _ Hb).
Qed.

Lemma split_three (a b c : string) :
  Str.contains ":" a = false ->
  Str.contains ":" b = false ->
  Str.split ":" (a +:+ ":" +:+ b +:+ ":" +:+ c) = a :: b :: Str.split ":" c.
Proof.
  intros Ha Hb.
  change (a +:+ ":" +:+ b +:+ ":" +:+ c)
    with (a +:+ String ":" (b +:+ String ":" c)).
  by rewrite (split_first _ _ _ Ha), (split_first _ _ _ Hb).
Qed.

(** C4, as the code has it. The processor name comes from the last line
    that contains [model name], whatever the case and wherever in the
    line, and is the piece between that line's first and second colon,
    trimmed: the text after the colon when the line has one colon.  The
    core count is the number of lines that begin with [processor] and do
    not contain [model name]. *)
Theorem processor_from_last_model_line :
  (forall w text pre line post a b rest,
      cpuinfo w = Text text ->
      Str.split Str.LF (Str.translate_newlines text) = (pre ++ line :: post)%list ->
      Forall colon_if_model pre ->
      names_model line = true ->
      Str.split ":" line = a :: b :: rest ->
      Forall (fun l => names_model l = false) post ->
      get_system_info w
      = {[ "processor" := VStr (Str.strip b);
           "cores" := VInt (Z.of_nat (length (List.filter counts_core
                                                (pre ++ line :: post))));
           "timestamp" := VFloat (now w) ]})
  /\ (forall a b,
         Str.contains ":" a = false ->
         Str.contains ":" b = false ->
         Str.split ":" (a +:+ ":" +:+ b) = [a; b])
  /\ (forall a b c,
         Str.contains ":" a = false ->
         Str.contains ":" b = false ->
         Str.split ":" (a +:+ ":" +:+ b +:+ ":" +:+ c) = a :: b :: Str.split ":" c).
Proof.
  split; [|split; [exact split_two | exact split_three]].
  intros w text pre line post a b rest Hw Hls Hpre Hm Hs Hpost.
  apply (system_info_of_scan w text); [done|].
  rewrite Hls, (cpuinfo_lines_last_model _ _ _ _ _ _ _ _ Hpre Hm Hs Hpost).
  by rewrite Z.add_0_l.
Qed.

(** C5. Whenever the [try] block raises, [get_system_info] returns the
    object of [processor] "Neoverse System" and [cores] 16 and nothing
    else, so without [timestamp]: that is so when the descriptor is
    missing or unreadable and when a line that contains [model name] has
    no colon; and [GET /api/system] answers with the object, without an
    error. *)
Theorem fallback_on_any_exception :
  (forall w e, system_info_body w = Raise e -> get_system_info w = fallback_info)
  /\ (fallback_info !! "processor" = Some (VStr "Neoverse System")
      /\ fallback_info !! "cores" = Some (VInt 16)
      /\ fallback_info !! "timestamp" = None
      /\ size fallback_info = 2%nat)
  /\ (forall w, cpuinfo w = Missing -> get_system_info w = fallback_info)
  /\ (forall w e, cpuinfo w = Unreadable e -> get_system_info w = fallback_info)
  /\ (forall w text pre line post,
         cpuinfo w = Text text ->
         Str.split Str.LF (Str.translate_newlines text) = (pre ++ line :: post)%list ->
         Forall colon_if_model pre ->
         names_model line = true ->
         Str.contains ":" line = false ->
         get_system_info w = fallback_info)
  /\ (forall w r,
         path r = "/api/system" ->
         do_GET w r = ([], Ok (json_response (get_system_info w)))).
Proof.
  split; [exact system_info_of_raise|].
  split; [done|].
  split.
  { intros w Hw. apply (system_info_of_raise w OSError).
    unfold system_info_body. by rewrite Hw. }
  split.
  { intros w e Hw. apply (system_info_of_raise w e).
    unfold system_info_body. by rewrite Hw. }
  split.
  { intros w text pre line post Hw Hls Hpre Hm Hc.
    apply (system_info_of_raise w IndexError). unfold system_info_body.
    rewrite Hw. cbn [read_text mbind result_bind].
    by rewrite Hls, (cpuinfo_lines_raise _ _ _ _ Hpre Hm Hc). }
  intros w r Hr. unfold do_GET. rewrite Hr. apply send_system_info.
Qed.

Lemma filter_core_no_model (ls : list string) :
  Forall (fun l => names_model l = false) ls ->
  List.filter counts_core ls = List.filter (Str.startswith "processor") ls.
Proof.
  induction 1 as [|l ls Hl _ IH]; [done|].
  simpl. unfold counts_core at 1. rewrite Hl, IH. done.
Qed.

Lemma filter_none {A} (f : A -> bool) (ls : list A) :
  Forall (fun l => f l = false) ls -> List.filter f ls = [].
Proof. induction 1 as [|l ls Hl _ IH]; [done|]. simpl. by rewrite Hl. Qed.

(** C10. A readable descriptor without a line that contains [model name]
    gives the processor "Unknown" and as many cores as lines begin with
    [processor], none if no line does; the result differs from the
    fallback object, which is returned only when the [try] block
    raises. *)
Theorem unknown_without_model_line :
  (forall w text,
      cpuinfo w = Text text ->
      Forall (fun l => names_model l = false)
             (Str.split Str.LF (Str.translate_newlines text)) ->
      get_system_info w
      = {[ "processor" := VStr "Unknown";
           "cores" := VInt (Z.of_nat (length
                        (List.filter (Str.startswith "processor")
                           (Str.split Str.LF (Str.translate_newlines text)))));
           "timestamp" := VFloat (now w) ]}
      /\ get_system_info w <> fallback_info
      /\ (Forall (fun l => Str.startswith "processor" l = false)
                 (Str.split Str.LF (Str.translate_newlines text)) ->
          get_system_info w
          = {[ "processor" := VStr "Unknown"; "cores" := VInt 0;
               "timestamp" := VFloat (now w) ]}))
  /\ (forall w,
         cpuinfo w = Text EmptyString ->
         get_system_info w
         = {[ "processor" := VStr "Unknown"; "cores" := VInt 0;
              "timestamp" := VFloat (now w) ]})
  /\ (forall w,
         get_system_info w = fallback_info ->
         exists e, system_info_body w = Raise e).
Proof.
  assert (forall w text,
             cpuinfo w = Text text ->
             Forall (fun l => names_model l = false)
                    (Str.split Str.LF (Str.translate_newlines text)) ->
             get_system_info w
             = {[ "processor" := VStr "Unknown";
                  "cores" := VInt (Z.of_nat (length
                               (List.filter (Str.startswith "processor")
                                  (Str.split Str.LF (Str.translate_newlines text)))));
                  "timestamp" := VFloat (now w) ]}) as Hmain.
  { intros w text Hw Hls. apply (system_info_of_scan w text); [done|].
    rewrite (cpuinfo_lines_no_model _ _ _ Hls), Z.add_0_l.
    by rewrite (filter_core_no_model _ Hls). }
  split; [|split].
  - intros w text Hw Hls. rewrite (Hmain w text Hw Hls).
    split; [done|]. split.
    + intros Heq. apply (f_equal (fun m => m !! "timestamp")) in Heq.
      vm_compute in Heq. discriminate.
    + intros Hnone. by rewrite (filter_none _ _ Hnone).
  - intros w Hw. rewrite (Hmain w EmptyString Hw); [done|].
    by repeat constructor.
  - intros w. unfold get_system_info.
    destruct (system_info_body w) as [d|e] eqn:Hbody; [|by eauto].
    cbn [try_except]. intros ->. exfalso. revert Hbody.
    unfold system_info_body.
    destruct (read_text (cpuinfo w)) as [text|]; [|done].
    cbn [mbind result_bind].
    destruct (cpuinfo_lines _ _) as [[p c]|]; [|done].
    cbn [mbind result_bind]. intros Heq.
    apply (f_equal (fun r => match r with
                             | Ok m => m !! "timestamp"
                             | Raise _ => None
                             end)) in Heq.
    vm_compute in Heq. discriminate.
Qed.

(** ** The claims about the benchmark trigger *)

Lemma run_benchmark_eq (w : world float) (ty : value float) :
  run_benchmark w ty = ([ThreadStart (run_async w)], Ok (acknowledgement ty)).
Proof. reflexivity. Qed.

Lemma depth_acknowledgement (ty : value float) :
  depth (VDict (acknowledgement ty)) = S (depth ty).
Proof.
  unfold acknowledgement.
  change (depth (VDict {[ "status" := VStr "started"; "type" := ty ]}))
    with (S (Nat.max 0 (Nat.max (depth ty) 0))).
  by rewrite Nat.max_0_l, Nat.max_0_r.
Qed.

(** The encoder goes through on an acknowledgement whose [type] value nests
    at most two levels more than the headroom, and raises on a deeper
    one, the head of the response being out already. *)
Lemma send_acknowledgement (ty : value float) :
  send_api_response (acknowledgement ty)
  = if (depth ty <=? 2 + encoder_headroom)%nat
    then ([], Ok (json_response (acknowledgement ty)))
    else ([HeadSent 200 api_headers], Raise RecursionError).
Proof.
  unfold send_api_response, json_dumps, encoder_limit.
  rewrite depth_acknowledgement.
  change (S (depth ty) <=? 3 + encoder_headroom)%nat
    with (depth ty <=? 2 + encoder_headroom)%nat.
  by destruct (depth ty <=? 2 + encoder_headroom)%nat.
Qed.

(** A request on the route whose body decodes to an object: the thread is
    started, then the acknowledgement is sent. *)
Lemma do_POST_object (w : world float) (r : request) (n : Z) post_data m :
  path r = "/api/run-benchmark" ->
  int_ (content_length r) = Ok n ->
  read n (rfile r) = Ok post_data ->
  json_loads post_data = Ok (VDict m) ->
  do_POST w r
  = if (depth (default (VStr "baseline") (m !! "type"))
        <=? 2 + encoder_headroom)%nat
    then ([ThreadStart (run_async w)],
          Ok (json_response
                (acknowledgement (default (VStr "baseline") (m !! "type")))))
    else ([ThreadStart (run_async w); HeadSent 200 api_headers],
          Raise RecursionError).
Proof.
  intros Hr Hn Hread Hm. unfold do_POST. rewrite Hr, Hn.
  cbn [String.eqb Ascii.eqb Bool.eqb lift mbind io_bind]. rewrite Hread.
  cbn [lift mbind io_bind]. rewrite Hm.
  cbn [get_type lift mbind io_bind]. rewrite run_benchmark_eq.
  cbn [mbind io_bind]. rewrite send_acknowledgement.
  by destruct (_ <=? _)%nat.
Qed.

Lemma post_elsewhere_404 (w : world float) (r : request) :
  path r <> "/api/run-benchmark" -> do_POST w r = ([], Ok (Error 404)).
Proof.
  intros Hr. unfold do_POST. apply String.eqb_neq in Hr. by rewrite Hr.
Qed.

(** C6, as the code has it. [run_benchmark] starts the thread and returns
    the object of [status] "started" and of the [type] it was given, for
    every value of it and whether or not the script exists, in which case
    the thread runs nothing.  A POST on the route whose [Content-Length]
    bytes decode to an object is answered 200 with that acknowledgement of
    the object's [type], or of "baseline" without one, unless the [type]
    value nests too deep for the encoder, which then raises after the
    thread was started and the head of the response sent; the body of
    [type] "custom" is answered with [status] "started" and [type]
    "custom". *)
Theorem run_benchmark_acknowledges :
  (forall w ty,
      run_benchmark w ty
      = ([ThreadStart (run_async w)],
         Ok {[ "status" := VStr "started"; "type" := ty ]}))
  /\ (forall w w' ty, snd (run_benchmark w ty) = snd (run_benchmark w' ty))
  /\ (forall w, script w = Absent -> run_async w = [])
  /\ (forall w r n post_data m,
         path r = "/api/run-benchmark" ->
         int_ (content_length r) = Ok n ->
         read n (rfile r) = Ok post_data ->
         json_loads post_data = Ok (VDict m) ->
         (depth (default (VStr "baseline") (m !! "type"))
          <= 2 + encoder_headroom)%nat ->
         do_POST w r
         = ([ThreadStart (run_async w)],
            Ok (Api 200
                    [("Content-type", "application/json");
                     ("Access-Control-Allow-Origin", "*")]
                    (VDict {[ "status" := VStr "started";
                              "type" := default (VStr "baseline")
                                                (m !! "type") ]}))))
  /\ (forall w r n post_data m,
         path r = "/api/run-benchmark" ->
         int_ (content_length r) = Ok n ->
         read n (rfile r) = Ok post_data ->
         json_loads post_data = Ok (VDict m) ->
         (2 + encoder_headroom
          < depth (default (VStr "baseline") (m !! "type")))%nat ->
         do_POST w r
         = ([ThreadStart (run_async w);
             HeadSent 200 [("Content-type", "application/json");
                           ("Access-Control-Allow-Origin", "*")]],
            Raise RecursionError))
  /\ (forall w r n post_data,
         path r = "/api/run-benchmark" ->
         int_ (content_length r) = Ok n ->
         read n (rfile r) = Ok post_data ->
         json_loads post_data = Ok (VDict {[ "type" := VStr "custom" ]}) ->
         do_POST w r
         = ([ThreadStart (run_async w)],
            Ok (Api 200
                    [("Content-type", "application/json");
                     ("Access-Control-Allow-Origin", "*")]
                    (VDict {[ "status" := VStr "started";
                              "type" := VStr "custom" ]})))).
Proof.
  split; [exact run_benchmark_eq|].
  split; [done|].
  split; [by intros w; unfold run_async; intros ->|].
  split.
  { intros w r n post_data m Hr Hn Hread Hm Hdepth.
    rewrite (do_POST_object w r n post_data m Hr Hn Hread Hm).
    apply Nat.leb_le in Hdepth. by rewrite Hdepth. }
  split.
  { intros w r n post_data m Hr Hn Hread Hm Hdepth.
    rewrite (do_POST_object w r n post_data m Hr Hn Hread Hm).
    apply Nat.leb_gt in Hdepth. by rewrite Hdepth. }
  intros w r n post_data Hr Hn Hread Hm.
  by rewrite (do_POST_object w r n post_data _ Hr Hn Hread Hm).
Qed.


(** C8. A POST to any path other than [/api/run-benchmark] is answered
    with 404, and the handler performs no effect: no thread is started,
    so no benchmark is launched. *)
Theorem post_elsewhere_is_404 (w : world float) (r : request) :
  path r <> "/api/run-benchmark" ->
  do_POST w r = ([], Ok (Error 404)).
Proof.
  intros Hr. unfold do_POST.
  apply String.eqb_neq in Hr. by rewrite Hr.
Qed.

(** ** Further properties of the results reader *)

(** X1. Whitespace before and after a line, its newline included, does
    not change what the line does to the mapping. *)
Theorem baseline_line_ignores_padding (b : gmap string float) pre line post :
  Str.blank pre = true ->
  Str.blank post = true ->
  baseline_line b (pre +:+ line +:+ post) = baseline_line b line.
Proof.
  intros Hpre Hpost. unfold baseline_line.
  rewrite (contains_pad ":" pre line post) by done.
  rewrite (contains_pad "GFLOPS" pre line post) by done.
  by rewrite strip_pad.
Qed.

(** X2. Lines without a colon or without [GFLOPS] can be taken out of the
    file: the loop gives the same mapping, or the same error, without
    them. *)
Theorem unmarked_lines_can_be_dropped (b : gmap string float) (ls : list string) :
  baseline_lines b ls = baseline_lines b (List.filter marked ls).
Proof.
  revert b. induction ls as [|l ls IH]; intros b; [done|].
  cbn [baseline_lines List.filter].
  destruct (baseline_line_shape l) as [[Hm Hl] | [[Hm _] | [Hm _]]]; rewrite Hm.
  - rewrite Hl. cbn [mbind result_bind]. apply IH.
  - cbn [baseline_lines]. destruct (baseline_line b l); [|done].
    cbn [mbind result_bind]. apply IH.
  - cbn [baseline_lines]. destruct (baseline_line b l); [|done].
    cbn [mbind result_bind]. apply IH.
Qed.

(** X3. The loop goes through exactly when every line goes through on its
    own, whatever mapping it starts from; when it does not, it raises
    [IndexError] or [ValueError]. *)
Theorem file_parses_iff_each_line_parses (b : gmap string float) (ls : list string) :
  ((exists m, baseline_lines b ls = Ok m)
   <-> Forall (fun l => exists m, baseline_line ∅ l = Ok m) ls)
  /\ (forall e, baseline_lines b ls = Raise e -> e = IndexError \/ e = ValueError).
Proof.
  revert b. induction ls as [|l ls IH]; intros b.
  { split; [|done]. split; [by constructor | by exists b]. }
  cbn [baseline_lines].
  destruct (baseline_line_shape l)
    as [[_ Hl] | [(_ & k & x & _ & _ & Hl) | (_ & e & He & Hl)]].
  - rewrite Hl. cbn [mbind result_bind]. destruct (IH b) as [IH1 IH2].
    split; [|exact IH2]. rewrite IH1. split.
    + intros H. constructor; [|done]. exists ∅. apply Hl.
    + by inversion 1.
  - rewrite Hl. cbn [mbind result_bind].
    destruct (IH (<[k := x]> b)) as [IH1 IH2].
    split; [|exact IH2]. rewrite IH1. split.
    + intros H. constructor; [|done]. eexists. apply Hl.
    + by inversion 1.
  - rewrite Hl. cbn [mbind result_bind]. split.
    + split; [by intros [m Hm]|].
      inversion 1 as [|? ? [m Hm] _]; subst. by rewrite Hl in Hm.
    + by intros e' [= <-].
Qed.

(** X4. The loop never removes an entry, and every entry of its result was
    in the mapping it started from or was made by a line of the file. *)
Theorem baseline_entries_come_from_lines (b m : gmap string float) ls :
  baseline_lines b ls = Ok m ->
  (forall k, is_Some (b !! k) -> is_Some (m !! k))
  /\ (forall k x,
         m !! k = Some x ->
         b !! k = Some x
         \/ exists line, line ∈ ls
                         /\ forall b', baseline_line b' line = Ok (<[k := x]> b')).
Proof.
  revert b. induction ls as [|l ls IH]; intros b.
  { intros [= ->]. split; [done | by left]. }
  cbn [baseline_lines].
  destruct (baseline_line_shape l)
    as [[_ Hl] | [(_ & k' & x' & _ & _ & Hl) | (_ & e & _ & Hl)]];
    rewrite Hl; cbn [mbind result_bind]; [| |done].
  - intros [IH1 IH2]%IH. split; [done|]. intros k x [Hb | (line & Hin & Hline)]%IH2.
    + by left.
    + right. exists line. split; [by right | done].
  - intros [IH1 IH2]%IH. split.
    + intros k Hk. apply IH1.
      destruct (decide (k' = k)) as [->|Hne].
      * rewrite lookup_insert_eq. by eexists.
      * by rewrite lookup_insert_ne.
    + intros k x [Hb | (line & Hin & Hline)]%IH2.
      * destruct (decide (k' = k)) as [->|Hne].
        -- rewrite lookup_insert_eq in Hb. injection Hb as ->.
           right. exists l. split; [by left | done].
        -- rewrite lookup_insert_ne in Hb by done. by left.
      * right. exists line. split; [by right | done].
Qed.

Lemma baseline_lines_keys (P : string -> Prop) (b m : gmap string float) ls :
  (forall k, Str.strip k = k -> Str.contains ":" k = false -> P k) ->
  (forall k, is_Some (b !! k) -> P k) ->
  baseline_lines b ls = Ok m ->
  (forall k, is_Some (m !! k) -> P k)
  /\ (size m <= size b + length (List.filter marked ls))%nat.
Proof.
  intros HP. revert b. induction ls as [|l ls IH]; intros b Hb.
  { intros [= ->]. split; [done | simpl; lia]. }
  cbn [baseline_lines List.filter].
  destruct (baseline_line_shape l)
    as [[Hm Hl] | [(Hm & k & x & Hk1 & Hk2 & Hl) | (_ & e & _ & Hl)]];
    rewrite Hl; cbn [mbind result_bind]; [| |done].
  - rewrite Hm. by apply IH.
  - rewrite Hm. intros [IH1 IH2]%IH.
    + split; [done|]. cbn [length].
      pose proof (map_size_insert k x b) as Hsize.
      destruct (b !! k); unfold id in Hsize; lia.
    + intros k0 Hk0. destruct (decide (k = k0)) as [->|Hne].
      * by apply HP.
      * rewrite lookup_insert_ne in Hk0 by done. by apply Hb.
Qed.

(** X5. Every label of the mapping read from a file is trimmed and holds
    no colon, and the mapping has at most as many entries as the file has
    lines with a colon and [GFLOPS]. *)
Theorem baseline_keys_are_trimmed (m : gmap string float) (ls : list string) :
  baseline_lines ∅ ls = Ok m ->
  (forall k, is_Some (m !! k) -> Str.strip k = k /\ Str.contains ":" k = false)
  /\ (size m <= length (List.filter marked ls))%nat.
Proof.
  intros Hm.
  destruct (baseline_lines_keys
              (fun k => Str.strip k = k /\ Str.contains ":" k = false) ∅ m ls)
    as [H1 H2]; [by auto | | done |].
  - intros k [x Hx]. by rewrite lookup_empty in Hx.
  - split; [done|]. by rewrite map_size_empty in H2.
Qed.

(** X6. A results file that exists and cannot be read to its end is never
    taken for a missing or a shorter file: [get_benchmark_data] raises, with
    the error of [open] when the file does not open, with the error of the
    first line that raises among those delivered before the failing read,
    and with the error of that read when all of them go through; and
    [GET /api/data] ends in that error without a response. *)
Theorem unreadable_results_file_raises (w : world float) (r : request) :
  path r = "/api/data" ->
  (forall e,
      baseline_summary w = Unreadable e ->
      get_benchmark_data w = Raise e /\ do_GET w r = ([], Raise e))
  /\ (forall delivered e,
         baseline_summary w = Damaged delivered e ->
         exists e',
           get_benchmark_data w = Raise e'
           /\ do_GET w r = ([], Raise e')
           /\ (forall m,
                  baseline_lines ∅ (Str.lines (Str.translate_newlines delivered))
                  = Ok m -> e' = e)
           /\ (forall e0,
                  baseline_lines ∅ (Str.lines (Str.translate_newlines delivered))
                  = Raise e0 -> e' = e0)).
Proof.
  intros Hr.
  assert (forall e, get_benchmark_data w = Raise e -> do_GET w r = ([], Raise e))
    as Hget.
  { intros e He. unfold do_GET. by rewrite Hr, He. }
  split.
  - intros e Hw.
    assert (get_benchmark_data w = Raise e) as Hd.
    { apply get_benchmark_data_raise. by rewrite Hw. }
    split; [done | by apply Hget].
  - intros delivered e Hw.
    destruct (baseline_lines ∅ (Str.lines (Str.translate_newlines delivered)))
      as [m|e0] eqn:Hlines.
    + exists e.
      assert (get_benchmark_data w = Raise e) as Hd.
      { apply get_benchmark_data_raise. rewrite Hw. unfold load_baseline.
        cbn [file_exists read_lines mbind result_bind]. by rewrite Hlines. }
      split; [done|]. split; [by apply Hget|]. by split.
    + exists e0.
      assert (get_benchmark_data w = Raise e0) as Hd.
      { apply get_benchmark_data_raise. rewrite Hw. unfold load_baseline.
        cbn [file_exists read_lines mbind result_bind]. by rewrite Hlines. }
      split; [done|]. split; [by apply Hget|]. split; [done|]. by intros ? [= <-].
Qed.

(** ** Further properties of the system information reporter *)

(** The two ways [get_system_info] ends. *)
Lemma system_info_cases (w : world float) :
  (exists e, system_info_body w = Raise e /\ get_system_info w = fallback_info)
  \/ (exists text p c,
         cpuinfo w = Text text
         /\ cpuinfo_lines ("Unknown", 0)
              (Str.split Str.LF (Str.translate_newlines text)) = Ok (p, c)
         /\ system_info_body w
            = Ok {[ "processor" := VStr p; "cores" := VInt c;
                    "timestamp" := VFloat (now w) ]}
         /\ get_system_info w
            = {[ "processor" := VStr p; "cores" := VInt c;
                 "timestamp" := VFloat (now w) ]}).
Proof.
  unfold get_system_info, system_info_body.
  destruct (cpuinfo w) as [|e|delivered e|text]; cbn [read_text mbind result_bind].
  - left. by exists OSError.
  - left. by exists e.
  - left. by exists e.
  - destruct (cpuinfo_lines _ _) as [[p c]|e] eqn:Hscan; cbn [mbind result_bind].
    + right. by exists text, p, c.
    + left. by exists e.
Qed.

Lemma cpuinfo_line_inv (p p' : string) (c c' : Z) (line : string) :
  cpuinfo_line (p, c) line = Ok (p', c') ->
  (names_model line = true /\ Str.strip p' = p' /\ c' = c)
  \/ (names_model line = false /\ p' = p
      /\ c' = c + (if Str.startswith "processor" line then 1 else 0)).
Proof.
  destruct (names_model line) eqn:Hm.
  - destruct (Str.contains ":" line) eqn:Hc.
    + destruct (split_second line Hc) as (a & b & rest & Hs).
      rewrite (cpuinfo_line_model _ _ _ _ _ _ Hm Hs). intros [= <- <-].
      left. by rewrite strip_idemp.
    + by rewrite (cpuinfo_line_model_no_colon _ _ Hm Hc).
  - rewrite (cpuinfo_line_other _ _ _ Hm). intros [= <- <-]. right.
    unfold counts_core. by rewrite Hm.
Qed.

Lemma cpuinfo_line_raise_inv (st : string * Z) (line : string) (e : exn) :
  cpuinfo_line st line = Raise e ->
  e = IndexError /\ names_model line = true /\ Str.contains ":" line = false.
Proof.
  destruct st as [p c]. destruct (names_model line) eqn:Hm.
  - destruct (Str.contains ":" line) eqn:Hc.
    + destruct (split_second line Hc) as (a & b & rest & Hs).
      by rewrite (cpuinfo_line_model _ _ _ _ _ _ Hm Hs).
    + rewrite (cpuinfo_line_model_no_colon _ _ Hm Hc). by intros [= <-].
  - by rewrite (cpuinfo_line_other _ _ _ Hm).
Qed.

Lemma cpuinfo_lines_inv (p p' : string) (c c' : Z) (ls : list string) :
  cpuinfo_lines (p, c) ls = Ok (p', c') ->
  (p' = p \/ Str.strip p' = p')
  /\ c <= c' <= c + Z.of_nat (length ls).
Proof.
  revert p c. induction ls as [|l ls IH]; intros p c.
  { intros [= <- <-]. split; [by left | simpl; lia]. }
  cbn [cpuinfo_lines].
  destruct (cpuinfo_line (p, c) l) as [[q d]|e] eqn:Hl; [|done].
  cbn [mbind result_bind]. intros [Hp Hc]%IH.
  apply cpuinfo_line_inv in Hl as [(_ & Hq & ->) | (_ & -> & ->)].
  - split; [|cbn [length]; lia]. destruct Hp as [-> | Hp]; by right.
  - split; [done|]. cbn [length].
    destruct (Str.startswith "processor" l); lia.
Qed.

(** X7. [get_system_info] always reports a processor name that is a string
    and a core count that is an integer and not negative. *)
Theorem system_info_has_processor_and_cores (w : world float) :
  exists p c,
    get_system_info w !! "processor" = Some (VStr p)
    /\ get_system_info w !! "cores" = Some (VInt c)
    /\ 0 <= c.
Proof.
  destruct (system_info_cases w)
    as [(e & _ & ->) | (text & p & c & _ & Hscan & _ & ->)].
  - exists "Neoverse System", 16. by repeat split.
  - exists p, c. apply cpuinfo_lines_inv in Hscan as [_ Hc].
    repeat split; [lia].
Qed.

(** X8. The result carries a [timestamp] exactly when the [try] block went
    through, and lacks it exactly when the block raised: a client can
    tell the fallback from a reading by that key. *)
Theorem timestamp_tells_fallback (w : world float) :
  (get_system_info w !! "timestamp" = None
   <-> exists e, system_info_body w = Raise e)
  /\ (get_system_info w !! "timestamp" = Some (VFloat (now w))
      <-> exists d, system_info_body w = Ok d).
Proof.
  destruct (system_info_cases w)
    as [(e & Hb & ->) | (text & p & c & _ & _ & Hb & ->)]; rewrite Hb.
  - split; split.
    + by eauto.
    + reflexivity.
    + intros H. vm_compute in H. discriminate H.
    + by intros [d Hd].
  - split; split.
    + intros H. vm_compute in H. discriminate H.
    + by intros [e He].
    + by eauto.
    + reflexivity.
Qed.

(** X9. The scan goes through exactly when every line that contains
    [model name] has a colon; the only error it raises is [IndexError]. *)
Theorem scan_raises_only_without_colon (st : string * Z) (ls : list string) :
  ((exists st', cpuinfo_lines st ls = Ok st') <-> Forall colon_if_model ls)
  /\ (forall e, cpuinfo_lines st ls = Raise e -> e = IndexError).
Proof.
  revert st. induction ls as [|l ls IH]; intros st.
  { split; [|done]. split; [by constructor | by exists st]. }
  cbn [cpuinfo_lines].
  destruct (cpuinfo_line st l) as [st'|e] eqn:Hl; cbn [mbind result_bind].
  - destruct (IH st') as [IH1 IH2]. split; [|exact IH2]. rewrite IH1.
    split; [|by inversion 1]. intros H. constructor; [|done].
    intros Hm. destruct (Str.contains ":" l) eqn:Hc; [done|].
    by rewrite (cpuinfo_line_model_no_colon _ _ Hm Hc) in Hl.
  - apply cpuinfo_line_raise_inv in Hl as (-> & Hm & Hc). split.
    + split; [by intros [st' H]|].
      inversion 1 as [|? ? Hl _]; subst. specialize (Hl Hm). congruence.
    + by intros e [= <-].
Qed.

(** X10. Lines that neither contain [model name] nor begin with
    [processor] can be taken out of the descriptor: the scan gives the
    same result without them. *)
Theorem irrelevant_lines_can_be_dropped (st : string * Z) (ls : list string) :
  cpuinfo_lines st ls = cpuinfo_lines st (List.filter relevant ls).
Proof.
  revert st. induction ls as [|l ls IH]; intros st; [done|].
  cbn [cpuinfo_lines List.filter]. destruct (relevant l) eqn:Hr.
  - cbn [cpuinfo_lines]. destruct (cpuinfo_line st l); [|done].
    cbn [mbind result_bind]. apply IH.
  - unfold relevant in Hr. apply orb_false_elim in Hr as [Hm Hp].
    destruct st as [p c]. rewrite (cpuinfo_line_other _ _ _ Hm).
    unfold counts_core. rewrite Hm, Hp, Z.add_0_r.
    cbn [negb andb mbind result_bind]. apply IH.
Qed.

(** X11. When no line that begins with [processor] contains [model name],
    a scan that goes through has counted every line that begins with
    [processor]. *)
Theorem cores_count_processor_lines (p p' : string) (c c' : Z) (ls : list string) :
  Forall (fun l => names_model l = true -> Str.startswith "processor" l = false) ls ->
  cpuinfo_lines (p, c) ls = Ok (p', c') ->
  c' = c + spec_cores ls.
Proof.
  unfold spec_cores. intros Hls. revert p c.
  induction Hls as [|l ls Hl _ IH]; intros p c.
  { intros [= <- <-]. simpl. lia. }
  cbn [cpuinfo_lines List.filter].
  destruct (cpuinfo_line (p, c) l) as [[q d]|e] eqn:Hline; [|done].
  cbn [mbind result_bind]. intros ->%IH.
  apply cpuinfo_line_inv in Hline as [(Hm & _ & ->) | (_ & _ & ->)].
  - by rewrite (Hl Hm).
  - destruct (Str.startswith "processor" l); cbn [length]; lia.
Qed.

(** X12. The processor name that [get_system_info] reports is trimmed: it
    never begins or ends with whitespace. *)
Theorem processor_name_is_trimmed (w : world float) (p : string) :
  get_system_info w !! "processor" = Some (VStr p) -> Str.strip p = p.
Proof.
  destruct (system_info_cases w)
    as [(e & _ & ->) | (text & q & c & _ & Hscan & _ & ->)].
  - by intros [= <-].
  - intros Hp. assert (q = p) as -> by (vm_compute in Hp; congruence).
    by apply cpuinfo_lines_inv in Hscan as [[-> | Hq] _].
Qed.

(** ** Further properties of the routes and of the trigger *)

Lemma substring_prefix (body extra : string) :
  substring 0 (String.length body) (body +:+ extra) = body.
Proof.
  induction body as [|c body IH].
  - rewrite app_empty. by destruct extra.
  - rewrite app_cons. simpl. by rewrite IH.
Qed.

Lemma substring_all (body : string) :
  substring 0 (String.length body) body = body.
Proof. induction body as [|c body IH]; [done|]. simpl. by rewrite IH. Qed.

(** Whether [rfile.read(n)] raises depends on [n] alone, and when it does
    not, the announced body comes back whatever follows it. *)
Lemma read_prefix (body extra : string) :
  read (Z.of_nat (String.length body)) (body +:+ extra)
  = read (Z.of_nat (String.length body)) body.
Proof.
  unfold read. destruct (_ || _); [done|].
  destruct (Z.ltb_spec (Z.of_nat (String.length body)) (-1)) as [H|_]; [lia|].
  destruct (Z.eqb_spec (Z.of_nat (String.length body)) (-1)) as [H|_]; [lia|].
  destruct (alloc_max <? _); [done|].
  by rewrite Nat2Z.id, substring_prefix, substring_all.
Qed.

(** X14. A POST starts the thread exactly when it is on the route and its
    [Content-Length] bytes decode to an object; nothing else is started,
    and every answer with a JSON body was preceded by the start of the
    thread. *)
Theorem thread_started_iff_body_decodes (w : world float) (r : request) :
  (ThreadStart (run_async w) ∈ fst (do_POST w r)
   <-> path r = "/api/run-benchmark"
       /\ exists n post_data m,
            int_ (content_length r) = Ok n
            /\ read n (rfile r) = Ok post_data
            /\ json_loads post_data = Ok (VDict m))
  /\ (forall st hs d,
         snd (do_POST w r) = Ok (Api st hs d) ->
         fst (do_POST w r) = [ThreadStart (run_async w)])
  /\ (fst (do_POST w r) = []
      \/ fst (do_POST w r) = [ThreadStart (run_async w)]
      \/ fst (do_POST w r) = [ThreadStart (run_async w); HeadSent 200 api_headers]).
Proof.
  destruct (String.eqb_spec (path r) "/api/run-benchmark") as [Hr|Hr].
  2:{ rewrite (post_elsewhere_404 w r Hr). cbn [fst snd].
      split; [|split; [done | by left]].
      split; [by intros ?%elem_of_nil | by intros [? _]]. }
  destruct (int_ (content_length r)) as [n|e] eqn:Hn.
  2:{ assert (do_POST w r = ([], Raise e)) as ->.
      { unfold do_POST. by rewrite Hr, Hn. }
      cbn [fst snd]. split; [|split; [done | by left]].
      split; [by intros ?%elem_of_nil | by intros (_ & ? & ? & ? & ? & _)]. }
  destruct (read n (rfile r)) as [post_data|e] eqn:Hread.
  2:{ assert (do_POST w r = ([], Raise e)) as ->.
      { unfold do_POST. rewrite Hr, Hn.
        cbn [String.eqb Ascii.eqb Bool.eqb lift mbind io_bind]. by rewrite Hread. }
      cbn [fst snd]. split; [|split; [done | by left]].
      split; [by intros ?%elem_of_nil|].
      intros (_ & n' & pd & m & [= <-] & Hpd & _). congruence. }
  destruct (json_loads post_data) as [v|e] eqn:Hv.
  2:{ assert (do_POST w r = ([], Raise e)) as ->.
      { unfold do_POST. rewrite Hr, Hn.
        cbn [String.eqb Ascii.eqb Bool.eqb lift mbind io_bind]. rewrite Hread.
        cbn [lift mbind io_bind]. by rewrite Hv. }
      cbn [fst snd]. split; [|split; [done | by left]].
      split; [by intros ?%elem_of_nil|].
      intros (_ & n' & pd & m & [= <-] & Hpd & Hm). congruence. }
  assert ((exists m, v = VDict m) \/ (forall m, v <> VDict m)) as [[m ->]|Hnot].
  { destruct v; first [right; by intros | left; by eexists]. }
  - rewrite (do_POST_object w r n post_data m Hr Hn Hread Hv).
    destruct (_ <=? _)%nat; cbn [fst snd].
    + split; [|split; [done | by right; left]].
      split; [by eauto 8|]. intros _. by apply elem_of_cons; left.
    + split; [|split; [done | by right; right]].
      split; [by eauto 8|]. intros _. by apply elem_of_cons; left.
  - assert (do_POST w r = ([], Raise AttributeError)) as ->.
    { unfold do_POST. rewrite Hr, Hn.
      cbn [String.eqb Ascii.eqb Bool.eqb lift mbind io_bind]. rewrite Hread.
      cbn [lift mbind io_bind]. rewrite Hv.
      destruct v; try done. by destruct (Hnot m). }
    cbn [fst snd]. split; [|split; [done | by left]].
    split; [by intros ?%elem_of_nil|].
    intros (_ & n' & pd & m & [= <-] & Hpd & Hm).
    exfalso. apply (Hnot m). congruence.
Qed.

(** X17. The handler decodes the first [Content-Length] bytes of the
    stream and nothing after them: bytes that follow the announced body do
    not change what the POST does. *)
Theorem bytes_after_the_body_are_ignored (w : world float) (r : request) body extra :
  int_ (content_length r) = Ok (Z.of_nat (String.length body)) ->
  rfile r = body +:+ extra ->
  do_POST w r
  = do_POST w {| path := path r; content_length := content_length r; rfile := body |}.
Proof.
  intros Hn Hr. unfold do_POST. cbn [path content_length rfile].
  destruct (String.eqb (path r) "/api/run-benchmark"); [|done].
  rewrite Hn, Hr. cbn [lift mbind io_bind].
  by rewrite read_prefix.
Qed.

(** ** Line ends *)

Lemma translate_newlines_lf (l rest : string) :
  Str.contains (String Str.CR EmptyString) l = false ->
  Str.translate_newlines (l +:+ Str.nl +:+ rest)
  = l +:+ Str.nl +:+ Str.translate_newlines rest.
Proof.
  induction l as [|c l IH]; [done|].
  rewrite contains_char_cons. intros [Hc Hl]%orb_false_elim.
  rewrite !app_cons. simpl. rewrite Ascii.eqb_sym, Hc. f_equal. by apply IH.
Qed.

Lemma translate_newlines_crlf (l rest : string) :
  Str.contains (String Str.CR EmptyString) l = false ->
  Str.translate_newlines (l +:+ Str.crlf +:+ rest)
  = l +:+ Str.nl +:+ Str.translate_newlines rest.
Proof.
  induction l as [|c l IH]; [done|].
  rewrite contains_char_cons. intros [Hc Hl]%orb_false_elim.
  rewrite !app_cons. simpl. rewrite Ascii.eqb_sym, Hc. f_equal. by apply IH.
Qed.

Lemma translate_newlines_id (l : string) :
  Str.contains (String Str.CR EmptyString) l = false ->
  Str.translate_newlines l = l.
Proof.
  induction l as [|c l IH]; [done|].
  rewrite contains_char_cons. intros [Hc Hl]%orb_false_elim.
  simpl. rewrite Ascii.eqb_sym, Hc. f_equal. by apply IH.
Qed.

Lemma translate_newlines_join (ls : list string) :
  Forall (fun l => Str.contains (String Str.CR EmptyString) l = false) ls ->
  Str.translate_newlines (Str.join Str.crlf ls) = Str.join Str.nl ls
  /\ Str.translate_newlines (Str.join Str.nl ls) = Str.join Str.nl ls.
Proof.
  induction 1 as [|l ls Hl Hls IH]; [done|].
  destruct ls as [|l' ls].
  - simpl. by rewrite translate_newlines_id.
  - change (Str.join Str.crlf (l :: l' :: ls))
      with (l +:+ Str.crlf +:+ Str.join Str.crlf (l' :: ls)).
    change (Str.join Str.nl (l :: l' :: ls))
      with (l +:+ Str.nl +:+ Str.join Str.nl (l' :: ls)).
    destruct IH as [IH1 IH2].
    by rewrite translate_newlines_crlf, translate_newlines_lf, IH1, IH2.
Qed.

(** X18. A file whose lines end in CR LF is read as the same file with
    lines that end in LF: both readers give the same result for the
    two. *)
Theorem crlf_files_read_as_lf_files (w w' : world float) (ls ls' : list string) :
  Forall (fun l => Str.contains (String Str.CR EmptyString) l = false) ls ->
  Forall (fun l => Str.contains (String Str.CR EmptyString) l = false) ls' ->
  baseline_summary w = Text (Str.join Str.crlf ls) ->
  baseline_summary w' = Text (Str.join Str.nl ls) ->
  cpuinfo w = Text (Str.join Str.crlf ls') ->
  cpuinfo w' = Text (Str.join Str.nl ls') ->
  now w = now w' ->
  get_benchmark_data w = get_benchmark_data w'
  /\ get_system_info w = get_system_info w'.
Proof.
  intros Hls Hls' Hb Hb' Hc Hc' Hnow.
  destruct (translate_newlines_join ls Hls) as [E1 E2].
  destruct (translate_newlines_join ls' Hls') as [E3 E4].
  unfold get_benchmark_data, get_system_info, system_info_body.
  rewrite Hb, Hb', Hc, Hc', Hnow, !load_baseline_text.
  cbn [read_text mbind result_bind].
  by rewrite E1, E2, E3, E4.
Qed.

End Dashboard.

Arguments Api {float}.
Arguments Error {float}.
Arguments Static {float}.

(** ** The theorems at concrete inputs *)

(** The handler over the rationals, with the stand-ins for the builtins, no
    headroom for the encoder and no static files. *)
Abbreviation sample_data :=
  (get_benchmark_data Q Qred Sample.float_of_string) (only parsing).
Abbreviation sample_GET :=
  (do_GET Q Qred Sample.float_of_string 0 (Sample.no_files (Error 404)))
  (only parsing).
Abbreviation sample_POST :=
  (do_POST Q Sample.int_of_string Sample.json_loads
           Sample.ssize_max Sample.alloc_max 0) (only parsing).


(** GET /api/data on a results file whose second line has both marks and
    no number. *)
Lemma malformed_marked_line_raises_witness :
  baseline_line Q Sample.float_of_string ∅ "bogus line" = Ok ∅
  /\ (exists p0 p1 rest,
         Str.split ":" (Str.strip "size: n/a GFLOPS") = p0 :: p1 :: rest
         /\ baseline_line Q Sample.float_of_string ∅ "size: n/a GFLOPS"
            = match Str.split_ws p1 with
              | [] => Raise IndexError
              | tok :: _ =>
                  match Sample.float_of_string tok with
                  | Some x => Ok (<[Str.strip p0 := x]> ∅)
                  | None => Raise ValueError
                  end
              end)
  /\ sample_data
       (Sample.machine (Text (Str.join Str.nl ["micro: 4.56 GFLOPS"; "GFLOPS:"]))
                       Missing)
     = Raise IndexError
  /\ sample_GET
       (Sample.machine (Text (Str.join Str.nl ["micro: 4.56 GFLOPS"; "GFLOPS:"]))
                       Missing)
       (Sample.get "/api/data")
     = ([], Raise IndexError).
Proof.
  destruct (malformed_marked_line_raises Q Qred Sample.float_of_string 0
              (Sample.no_files (Error 404)))
    as (H1 & H2 & H3).
  split.
  { apply H1. left. reflexivity. }
  split.
  { apply H2; reflexivity. }
  apply (H3 (Sample.machine
               (Text (Str.join Str.nl ["micro: 4.56 GFLOPS"; "GFLOPS:"])) Missing)
            (Str.join Str.nl ["micro: 4.56 GFLOPS"; "GFLOPS:"])
            ["micro: 4.56 GFLOPS" +:+ Str.nl] "GFLOPS:" []
            {[ "micro" := (Qred 4.56) ]} IndexError (Sample.get "/api/data")).
  - reflexivity.
  - reflexivity.
  - vm_compute. reflexivity.
  - reflexivity.
  - reflexivity.
Defined.

(** C2 fails on the code: a results file whose only line is [GFLOPS:] has
    both marks and no word after the colon; the line is not passed over,
    [get_benchmark_data] raises [IndexError] and [GET /api/data] ends in
    that error.  A line whose word after the colon is not a number raises
    [ValueError] in the same way. *)
Lemma marked_line_without_number_is_not_skipped :
  baseline_line Q Sample.float_of_string ∅ "GFLOPS:" = Raise IndexError
  /\ sample_data (Sample.machine (Text "GFLOPS:") Missing) = Raise IndexError
  /\ sample_GET (Sample.machine (Text "GFLOPS:") Missing) (Sample.get "/api/data")
     = ([], Raise IndexError)
  /\ sample_GET (Sample.machine (Text "size: n/a GFLOPS") Missing)
       (Sample.get "/api/data")
     = ([], Raise ValueError).
Proof. split; [|split; [|split]]; vm_compute; reflexivity. Qed.

(** The results reader without its file, with a file that goes through,
    with one that has a line without a number, and with one that does not
    open. *)
Lemma missing_file_gives_empty_baseline_witness :
  sample_data (Sample.machine Missing Missing)
  = Ok {[ "baseline" := VDict ∅;
          "optimizations" := VList (optimizations Q Qred);
          "timestamp" := VFloat 0%Q ]}
  /\ (exists d,
         sample_data (Sample.machine (Text "small: 2.59 GFLOPS") Missing) = Ok d
         /\ d !! "optimizations" = Some (VList (optimizations Q Qred)))
  /\ sample_data
       (Sample.machine (Text (Str.join Str.nl ["small: 2.59 GFLOPS"; "GFLOPS:"]))
                       Missing)
     = Raise IndexError
  /\ sample_data (Sample.machine (Unreadable OSError) Missing) = Raise OSError.
Proof.
  destruct (missing_file_gives_empty_baseline Q Qred Sample.float_of_string)
    as (H1 & _ & _ & H4 & H5 & H6 & H7).
  split.
  { apply (H1 (Sample.machine Missing Missing)). reflexivity. }
  split.
  { destruct (H5 (Sample.machine (Text "small: 2.59 GFLOPS") Missing)
                 "small: 2.59 GFLOPS")
      as (d & Hd & _).
    - reflexivity.
    - constructor; [eexists; vm_compute; reflexivity | constructor].
    - exists d. split; [exact Hd|].
      apply (H4 (Sample.machine (Text "small: 2.59 GFLOPS") Missing)).
      exact Hd. }
  split.
  { apply (H6 (Sample.machine
                 (Text (Str.join Str.nl ["small: 2.59 GFLOPS"; "GFLOPS:"]))
                 Missing)
              (Str.join Str.nl ["small: 2.59 GFLOPS"; "GFLOPS:"])
              ["small: 2.59 GFLOPS" +:+ Str.nl] "GFLOPS:" []
              {[ "small" := 2.59%Q ]}).
    - reflexivity.
    - reflexivity.
    - vm_compute. reflexivity.
    - vm_compute. reflexivity. }
  apply (H7 (Sample.machine (Unreadable OSError) Missing)). reflexivity.
Defined.

(** C3 fails on the code: for the results file of the one line [GFLOPS:]
    [get_benchmark_data] raises before it reaches the list, so no result,
    and no list of optimisations, is returned for this content. *)
Lemma no_list_for_a_malformed_file :
  sample_data (Sample.machine (Text "GFLOPS:") Missing) = Raise IndexError
  /\ ~ (exists d,
          sample_data (Sample.machine (Text "GFLOPS:") Missing) = Ok d
          /\ d !! "optimizations" = Some (VList (optimizations Q Qred))).
Proof.
  split.
  - vm_compute. reflexivity.
  - intros (d & Hd & _). vm_compute in Hd. discriminate Hd.
Qed.


(** A descriptor of two cores whose two [model name] lines differ. *)
Lemma processor_from_last_model_line_witness :
  get_system_info Q
    (Sample.machine Missing
       (Text (Str.join Str.nl
                ["processor : 0"; "model name : A"; "processor : 1";
                 "Model Name : B: C"; EmptyString])))
  = {[ "processor" := VStr "B"; "cores" := VInt 2; "timestamp" := VFloat 0%Q ]}
  /\ Str.split ":" ("model name " +:+ ":" +:+ " A") = ["model name "; " A"]
  /\ Str.split ":" ("Model Name " +:+ ":" +:+ " B" +:+ ":" +:+ " C")
     = "Model Name " :: " B" :: Str.split ":" " C".
Proof.
  destruct (processor_from_last_model_line Q) as (H1 & H2 & H3).
  split.
  { apply (H1 (Sample.machine Missing
                 (Text (Str.join Str.nl
                          ["processor : 0"; "model name : A"; "processor : 1";
                           "Model Name : B: C"; EmptyString])))
              (Str.join Str.nl
                 ["processor : 0"; "model name : A"; "processor : 1";
                  "Model Name : B: C"; EmptyString])
              ["processor : 0"; "model name : A"; "processor : 1"]
              "Model Name : B: C" [EmptyString] "Model Name " " B" [" C"]).
    - reflexivity.
    - reflexivity.
    - constructor; [intros _; reflexivity|].
      constructor; [intros _; reflexivity|].
      constructor; [intros _; reflexivity|]. constructor.
    - reflexivity.
    - reflexivity.
    - constructor; [reflexivity | constructor]. }
  split.
  { apply H2; reflexivity. }
  apply H3; reflexivity.
Defined.

(** C4 fails on the code: on a descriptor of the two lines
    [model name : A] and [model name : B] the first line whose label is
    [model name] gives "A", and [get_system_info] reports "B". *)
Lemma processor_is_not_from_first_model_line :
  spec_processor
    (Str.split Str.LF (Str.join Str.nl ["model name : A"; "model name : B"]))
  = Some "A"
  /\ get_system_info Q
       (Sample.machine Missing
          (Text (Str.join Str.nl ["model name : A"; "model name : B"])))
     !! "processor"
     = Some (VStr "B").
Proof. split; vm_compute; reflexivity. Qed.

(** The reporter without its descriptor, with an unreadable one, and with a
    [model name] line without a colon. *)
Lemma fallback_on_any_exception_witness :
  get_system_info Q (Sample.machine Missing Missing) = fallback_info Q
  /\ get_system_info Q (Sample.machine Missing (Unreadable UnicodeDecodeError))
     = fallback_info Q
  /\ get_system_info Q
       (Sample.machine Missing
          (Text (Str.join Str.nl ["processor : 0"; "model name"])))
     = fallback_info Q
  /\ sample_GET (Sample.machine Missing Missing) (Sample.get "/api/system")
     = ([], Ok (json_response Q (fallback_info Q))).
Proof.
  destruct (fallback_on_any_exception Q Qred Sample.float_of_string 0
              (Sample.no_files (Error 404)))
    as (H1 & _ & H3 & H4 & H5 & H6).
  split.
  { apply (H1 (Sample.machine Missing Missing) OSError). reflexivity. }
  split.
  { apply (H4 (Sample.machine Missing (Unreadable UnicodeDecodeError))
              UnicodeDecodeError).
    reflexivity. }
  split.
  { apply (H5 (Sample.machine Missing
                 (Text (Str.join Str.nl ["processor : 0"; "model name"])))
              (Str.join Str.nl ["processor : 0"; "model name"])
              ["processor : 0"] "model name" []).
    - reflexivity.
    - reflexivity.
    - constructor; [intros _; reflexivity | constructor].
    - reflexivity.
    - reflexivity. }
  rewrite <- (H3 (Sample.machine Missing Missing) eq_refl).
  apply (H6 (Sample.machine Missing Missing) (Sample.get "/api/system")).
  reflexivity.
Defined.

(** Descriptors without a [model name] line. *)
Lemma unknown_without_model_line_witness :
  get_system_info Q
    (Sample.machine Missing
       (Text (Str.join Str.nl ["processor : 0"; "BogoMIPS : 50"; "processor : 1"])))
  = {[ "processor" := VStr "Unknown"; "cores" := VInt 2;
       "timestamp" := VFloat 0%Q ]}
  /\ get_system_info Q (Sample.machine Missing (Text "BogoMIPS : 50"))
     = {[ "processor" := VStr "Unknown"; "cores" := VInt 0;
          "timestamp" := VFloat 0%Q ]}
  /\ get_system_info Q (Sample.machine Missing (Text "BogoMIPS : 50"))
     <> fallback_info Q
  /\ get_system_info Q (Sample.machine Missing (Text EmptyString))
     = {[ "processor" := VStr "Unknown"; "cores" := VInt 0;
          "timestamp" := VFloat 0%Q ]}
  /\ exists e, system_info_body Q (Sample.machine Missing Missing) = Raise e.
Proof.
  destruct (unknown_without_model_line Q) as (H1 & H2 & H3).
  split.
  { apply (H1 (Sample.machine Missing
                 (Text (Str.join Str.nl
                          ["processor : 0"; "BogoMIPS : 50"; "processor : 1"])))
              (Str.join Str.nl ["processor : 0"; "BogoMIPS : 50"; "processor : 1"])).
    - reflexivity.
    - constructor; [reflexivity|]. constructor; [reflexivity|].
      constructor; [reflexivity | constructor]. }
  destruct (H1 (Sample.machine Missing (Text "BogoMIPS : 50")) "BogoMIPS : 50")
    as (_ & Hne & Hzero).
  { reflexivity. }
  { constructor; [reflexivity | constructor]. }
  split.
  { apply Hzero. constructor; [reflexivity | constructor]. }
  split; [exact Hne|].
  split.
  { apply (H2 (Sample.machine Missing (Text EmptyString))). reflexivity. }
  apply (H3 (Sample.machine Missing Missing)). reflexivity.
Defined.

(** The trigger on the body of [type] "custom", on the empty object, and
    with a decoder that yields a [type] of three nested lists. *)
Lemma run_benchmark_acknowledges_witness :
  run_async Q (Sample.machine Missing Missing) = []
  /\ sample_POST (Sample.machine Missing Missing)
       (Sample.post "/api/run-benchmark" (Some "17") Sample.body_custom)
     = ([ThreadStart []],
        Ok (Api 200
                [("Content-type", "application/json");
                 ("Access-Control-Allow-Origin", "*")]
                (VDict {[ "status" := VStr "started"; "type" := VStr "custom" ]})))
  /\ sample_POST (Sample.machine Missing Missing)
       (Sample.post "/api/run-benchmark" (Some "2") "{}")
     = ([ThreadStart []],
        Ok (Api 200
                [("Content-type", "application/json");
                 ("Access-Control-Allow-Origin", "*")]
                (VDict {[ "status" := VStr "started"; "type" := VStr "baseline" ]})))
  /\ do_POST Q Sample.int_of_string
       (fun _ => Ok (VDict {[ "type" := VList [VList [VList []]] ]}))
       Sample.ssize_max Sample.alloc_max 0
       (Sample.machine Missing Missing)
       (Sample.post "/api/run-benchmark" (Some "2") "{}")
     = ([ThreadStart [];
         HeadSent 200 [("Content-type", "application/json");
                       ("Access-Control-Allow-Origin", "*")]],
        Raise RecursionError).
Proof.
  destruct (run_benchmark_acknowledges Q Sample.int_of_string Sample.json_loads
              Sample.ssize_max Sample.alloc_max 0)
    as (_ & _ & H3 & H4 & _ & H6).
  destruct (run_benchmark_acknowledges Q Sample.int_of_string
              (fun _ => Ok (VDict {[ "type" := VList [VList [VList []]] ]}))
              Sample.ssize_max Sample.alloc_max 0)
    as (_ & _ & _ & _ & H5 & _).
  split.
  { apply (H3 (Sample.machine Missing Missing)). reflexivity. }
  split.
  { apply (H6 (Sample.machine Missing Missing)
              (Sample.post "/api/run-benchmark" (Some "17") Sample.body_custom)
              17 Sample.body_custom).
    - reflexivity.
    - reflexivity.
    - vm_compute. reflexivity.
    - vm_compute. reflexivity. }
  split.
  { refine (H4 (Sample.machine Missing Missing)
               (Sample.post "/api/run-benchmark" (Some "2") "{}") 2 "{}" ∅
               _ _ _ _ _).
    - reflexivity.
    - reflexivity.
    - vm_compute. reflexivity.
    - vm_compute. reflexivity.
    - vm_compute. lia. }
  apply (H5 (Sample.machine Missing Missing)
            (Sample.post "/api/run-benchmark" (Some "2") "{}") 2 "{}"
            {[ "type" := VList [VList [VList []]] ]}).
  - reflexivity.
  - reflexivity.
  - vm_compute. reflexivity.
  - reflexivity.
  - vm_compute. lia.
Defined.

(** C6 fails on the code: not every request body is acknowledged.  The
    body [null] decodes to [None], which has no [get]: the handler raises
    [AttributeError], [run_benchmark] is not reached and nothing is
    returned; a body that is no JSON ends in the decoder's error. *)
Lemma not_every_body_is_acknowledged :
  sample_POST (Sample.machine Missing Missing)
    (Sample.post "/api/run-benchmark" (Some "4") "null")
  = ([], Raise AttributeError)
  /\ sample_POST (Sample.machine Missing Missing)
       (Sample.post "/api/run-benchmark" (Some "11") "type=custom")
     = ([], Raise JSONDecodeError).
Proof. split; vm_compute; reflexivity. Qed.



(** A POST to another path. *)
Lemma post_elsewhere_is_404_witness :
  sample_POST (Sample.machine Missing Missing)
    (Sample.post "/api/run" (Some "17") Sample.body_custom)
  = ([], Ok (Error 404)).
Proof.
  apply (post_elsewhere_is_404 Q Sample.int_of_string Sample.json_loads
           Sample.ssize_max Sample.alloc_max 0).
  apply String.eqb_neq. reflexivity.
Defined.

(** ** The further properties at concrete inputs *)

Lemma baseline_line_ignores_padding_witness :
  baseline_line Q Sample.float_of_string ∅
    ("  " +:+ "small: 2.59 GFLOPS" +:+ (" " +:+ Str.nl))
  = baseline_line Q Sample.float_of_string ∅ "small: 2.59 GFLOPS".
Proof.
  apply (baseline_line_ignores_padding Q Sample.float_of_string ∅
           "  " "small: 2.59 GFLOPS" (" " +:+ Str.nl)).
  - reflexivity.
  - reflexivity.
Defined.

Lemma file_parses_iff_each_line_parses_witness :
  (exists m, baseline_lines Q Sample.float_of_string ∅
               ["small: 2.59 GFLOPS"; "bogus"] = Ok m)
  /\ (IndexError = IndexError \/ IndexError = ValueError).
Proof.
  split.
  - apply (proj1 (file_parses_iff_each_line_parses Q Sample.float_of_string ∅
                    ["small: 2.59 GFLOPS"; "bogus"])).
    constructor; [eexists; vm_compute; reflexivity|].
    constructor; [eexists; vm_compute; reflexivity|]. constructor.
  - apply (proj2 (file_parses_iff_each_line_parses Q Sample.float_of_string ∅
                    ["GFLOPS:"])).
    vm_compute. reflexivity.
Defined.

Lemma baseline_entries_come_from_lines_witness :
  (∅ : gmap string Q) !! "small" = Some 2.59%Q
  \/ exists line,
       line ∈ ["bogus"; "small: 2.59 GFLOPS"]
       /\ forall b', baseline_line Q Sample.float_of_string b' line
                     = Ok (<["small" := 2.59%Q]> b').
Proof.
  destruct (baseline_entries_come_from_lines Q Sample.float_of_string
              (∅ : gmap string Q) ({[ "small" := 2.59%Q ]} : gmap string Q)
              ["bogus"; "small: 2.59 GFLOPS"])
    as [_ H2].
  - vm_compute. reflexivity.
  - apply H2. reflexivity.
Defined.

Lemma baseline_keys_are_trimmed_witness :
  (Str.strip "small" = "small" /\ Str.contains ":" "small" = false)
  /\ (size ({[ "small" := 2.59%Q ]} : gmap string Q)
      <= length (List.filter marked ["  small : 2.59 GFLOPS"; "bogus"]))%nat.
Proof.
  destruct (baseline_keys_are_trimmed Q Sample.float_of_string
              {[ "small" := 2.59%Q ]} ["  small : 2.59 GFLOPS"; "bogus"])
    as [H1 H2].
  - vm_compute. reflexivity.
  - split; [|exact H2]. apply H1. exists 2.59%Q. reflexivity.
Defined.


Lemma timestamp_tells_fallback_witness :
  get_system_info Q (Sample.machine Missing Missing) !! "timestamp" = None
  /\ get_system_info Q (Sample.machine Missing (Text "processor : 0"))
     !! "timestamp"
     = Some (VFloat 0%Q).
Proof.
  split.
  - apply (proj1 (timestamp_tells_fallback Q (Sample.machine Missing Missing))).
    exists OSError. reflexivity.
  - apply (proj2 (timestamp_tells_fallback Q
                    (Sample.machine Missing (Text "processor : 0")))).
    eexists. vm_compute. reflexivity.
Defined.

Lemma scan_raises_only_without_colon_witness :
  (exists st', cpuinfo_lines ("Unknown", 0) ["processor : 0"; "model name : A"]
               = Ok st')
  /\ IndexError = IndexError.
Proof.
  split.
  - apply (proj1 (scan_raises_only_without_colon ("Unknown", 0)
                    ["processor : 0"; "model name : A"])).
    constructor; [intros _; reflexivity|].
    constructor; [intros _; reflexivity|]. constructor.
  - apply (proj2 (scan_raises_only_without_colon ("Unknown", 0) ["model name"])).
    vm_compute. reflexivity.
Defined.

Lemma cores_count_processor_lines_witness :
  2 = 0 + spec_cores ["processor : 0"; "model name : A"; "processor : 1"].
Proof.
  apply (cores_count_processor_lines "Unknown" "A" 0 2
           ["processor : 0"; "model name : A"; "processor : 1"]).
  - constructor; [intros H; vm_compute in H; discriminate H|].
    constructor; [intros _; reflexivity|].
    constructor; [intros H; vm_compute in H; discriminate H|]. constructor.
  - vm_compute. reflexivity.
Defined.

Lemma processor_name_is_trimmed_witness : Str.strip "A 1" = "A 1".
Proof.
  apply (processor_name_is_trimmed Q
           (Sample.machine Missing (Text "model name :   A 1  "))).
  vm_compute. reflexivity.
Defined.

Lemma unreadable_results_file_raises_witness :
  sample_GET (Sample.machine (Unreadable OSError) Missing) (Sample.get "/api/data")
  = ([], Raise OSError)
  /\ exists e',
       sample_data
         (Sample.machine
            (Damaged (Str.join Str.nl ["GFLOPS:"; "small: 2.59 GFLOPS"; EmptyString])
                     UnicodeDecodeError)
            Missing)
       = Raise e'
       /\ e' = IndexError.
Proof.
  destruct (unreadable_results_file_raises Q Qred Sample.float_of_string 0
              (Sample.no_files (Error 404))
              (Sample.machine (Unreadable OSError) Missing)
              (Sample.get "/api/data") eq_refl)
    as [H1 _].
  destruct (unreadable_results_file_raises Q Qred Sample.float_of_string 0
              (Sample.no_files (Error 404))
              (Sample.machine
                 (Damaged (Str.join Str.nl
                             ["GFLOPS:"; "small: 2.59 GFLOPS"; EmptyString])
                          UnicodeDecodeError)
                 Missing)
              (Sample.get "/api/data") eq_refl)
    as [_ H2].
  split.
  - apply (H1 OSError). reflexivity.
  - destruct (H2 (Str.join Str.nl ["GFLOPS:"; "small: 2.59 GFLOPS"; EmptyString])
                 UnicodeDecodeError eq_refl)
      as (e' & Hd & _ & _ & He').
    exists e'. split; [exact Hd|]. apply He'. vm_compute. reflexivity.
Defined.

Lemma thread_started_iff_body_decodes_witness :
  ThreadStart (run_async Q (Sample.machine Missing Missing))
  ∈ fst (sample_POST (Sample.machine Missing Missing)
           (Sample.post "/api/run-benchmark" (Some "2") "{}"))
  /\ fst (sample_POST (Sample.machine Missing Missing)
            (Sample.post "/api/run-benchmark" (Some "17") Sample.body_custom))
     = [ThreadStart (run_async Q (Sample.machine Missing Missing))].
Proof.
  split.
  - apply (proj1 (thread_started_iff_body_decodes Q Sample.int_of_string
                    Sample.json_loads Sample.ssize_max Sample.alloc_max 0
                    (Sample.machine Missing Missing)
                    (Sample.post "/api/run-benchmark" (Some "2") "{}"))).
    split; [reflexivity|]. exists 2, "{}", ∅.
    split; [reflexivity|]. split; vm_compute; reflexivity.
  - apply (proj1 (proj2 (thread_started_iff_body_decodes Q Sample.int_of_string
                           Sample.json_loads Sample.ssize_max Sample.alloc_max 0
                           (Sample.machine Missing Missing)
                           (Sample.post "/api/run-benchmark" (Some "17")
                                        Sample.body_custom)))
                 200
                 [("Content-type", "application/json");
                  ("Access-Control-Allow-Origin", "*")]
                 (VDict {[ "status" := VStr "started"; "type" := VStr "custom" ]})).
    vm_compute. reflexivity.
Defined.

Lemma bytes_after_the_body_are_ignored_witness :
  sample_POST (Sample.machine Missing Missing)
    (Sample.post "/api/run-benchmark" (Some "17")
       (Sample.body_custom +:+ "POST /next"))
  = sample_POST (Sample.machine Missing Missing)
      (Sample.post "/api/run-benchmark" (Some "17") Sample.body_custom).
Proof.
  apply (bytes_after_the_body_are_ignored Q Sample.int_of_string
           Sample.json_loads Sample.ssize_max Sample.alloc_max 0
           (Sample.machine Missing Missing)
           (Sample.post "/api/run-benchmark" (Some "17")
              (Sample.body_custom +:+ "POST /next"))
           Sample.body_custom "POST /next").
  - reflexivity.
  - reflexivity.
Defined.

Lemma crlf_files_read_as_lf_files_witness :
  sample_data
    (Sample.machine
       (Text (Str.join Str.crlf ["small: 2.59 GFLOPS"; "micro: 4.56 GFLOPS"]))
       (Text (Str.join Str.crlf ["processor : 0"; "model name : A"])))
  = sample_data
      (Sample.machine
         (Text (Str.join Str.nl ["small: 2.59 GFLOPS"; "micro: 4.56 GFLOPS"]))
         (Text (Str.join Str.nl ["processor : 0"; "model name : A"])))
  /\ get_system_info Q
       (Sample.machine
          (Text (Str.join Str.crlf ["small: 2.59 GFLOPS"; "micro: 4.56 GFLOPS"]))
          (Text (Str.join Str.crlf ["processor : 0"; "model name : A"])))
     = get_system_info Q
         (Sample.machine
            (Text (Str.join Str.nl ["small: 2.59 GFLOPS"; "micro: 4.56 GFLOPS"]))
            (Text (Str.join Str.nl ["processor : 0"; "model name : A"]))).
Proof.
  apply (crlf_files_read_as_lf_files Q Qred Sample.float_of_string _ _
           ["small: 2.59 GFLOPS"; "micro: 4.56 GFLOPS"]
           ["processor : 0"; "model name : A"]).
  - constructor; [reflexivity|]. constructor; [reflexivity | constructor].
  - constructor; [reflexivity|]. constructor; [reflexivity | constructor].
  - reflexivity.
  - reflexivity.
  - reflexivity.
  - reflexivity.
  - reflexivity.
Defined.
